(** * onboard.py: employee onboarding across four providers

    A shallow embedding of [src/onboard.py].  The script calls four provider
    functions one after the other (Google Workspace directory, Zoom, Dropbox,
    Slack) and logs an aggregate line.  Every provider talks to libraries that
    are not part of the repository (googleapiclient, requests, PyJWT); their
    answers are taken from an arbitrary [world], and what the script does to
    them (the requests it issues and the lines it logs) is recorded in a
    trace.  Python exceptions are an explicit outcome.  The [import]
    statements inside the functions are taken to succeed, and the fields of
    an employee record are strings. *)

From Stdlib Require Import ZArith String List.
From stdpp Require Import base gmap strings list.

Local Open Scope string_scope.
Local Open Scope Z_scope.
Local Open Scope list_scope.

#[local] Set Warnings "-register-all".

(** ** Python values *)

(** The values that flow through the script: configuration entries, request
    payloads and decoded JSON bodies.  [VFmt parts] is the string an f-string
    builds: the concatenation of [str(p)] for each part.  A [VDict] lists each
    key once, as a parsed body or a dict display does. *)
Inductive value : Type :=
| VNone
| VBool (b : bool)
| VInt (n : Z)
| VStr (s : string)
| VList (l : list value)
| VDict (kvs : list (string * value))
| VFmt (parts : list value).

(** Python's truth value, as tested by [if x:]. *)
Definition truthy (v : value) : bool :=
  match v with
  | VNone => false
  | VBool b => b
  | VInt n => negb (n =? 0)
  | VStr s => negb (String.eqb s "")
  | VList l => match l with [] => false | _ => true end
  | VDict kvs => match kvs with [] => false | _ => true end
  | VFmt parts => match parts with [] => false | _ => true end
  end.

(** [v == s] for a string [s]: only an equal string compares equal. *)
Definition eq_str (v : value) (s : string) : bool :=
  match v with
  | VStr s' => String.eqb s' s
  | _ => false
  end.

Fixpoint assoc (k : string) (kvs : list (string * value)) : option value :=
  match kvs with
  | [] => None
  | (k', v) :: rest => if String.eqb k k' then Some v else assoc k rest
  end.

(** ** Exceptions *)

(** The exception classes the script can meet.  [RequestException] stands for
    the base class of the requests library and its transport subclasses
    (ConnectionError, Timeout, ...); [HTTPError] is the subclass raised by
    [raise_for_status]; [RequestsJSONDecodeError] is the class of recent
    versions of requests that inherits from both [RequestException] and
    [json.JSONDecodeError]; [JSONDecodeError] is the plain [json] class;
    [OtherError] is any other subclass of [Exception].  Every class here is
    a subclass of [Exception]: what [except Exception] lets through
    ([KeyboardInterrupt], [SystemExit]) is not an outcome of the library
    calls and is not modelled, so "every exception" below means every
    exception that is an [Exception]. *)
Inductive exn_class : Type :=
| KeyError
| NameError
| UnboundLocalError
| AttributeError
| TypeError
| RequestException
| HTTPError
| RequestsJSONDecodeError
| JSONDecodeError
| OtherError (name : string).

Record exn : Type := Exn { exn_cls : exn_class; exn_msg : string }.

(** [isinstance(e, requests.exceptions.RequestException)] *)
Definition is_RequestException (e : exn) : bool :=
  match exn_cls e with
  | RequestException | HTTPError | RequestsJSONDecodeError => true
  | _ => false
  end.

(** [isinstance(e, json.JSONDecodeError)] *)
Definition is_JSONDecodeError (e : exn) : bool :=
  match exn_cls e with
  | RequestsJSONDecodeError | JSONDecodeError => true
  | _ => false
  end.

Inductive outcome (A : Type) : Type :=
| Ret (a : A)
| Raise (e : exn).
Arguments Ret {A} a.
Arguments Raise {A} e.

(** ** The outside world and the trace *)

(** A [requests] response: its status code and what [response.json()] does. *)
Record response : Type := Response { status_code : Z; json : outcome value }.

(** Calls into the Google client libraries. *)
Inductive google_call : Type :=
| FromServiceAccountFile (file scopes : value)
| Build (credentials : value)
| UsersInsert (service domain body : value)
| GroupsInsert (service groupKey body : value).

(** [requests.post] is called with [data=json.dumps(payload)] or with
    [json=payload]. *)
Inductive post_body : Type :=
| Data (dumped : value)
| Json (payload : value).

Inductive http_call : Type :=
| Get (url headers params : value)
| Post (url headers : value) (body : post_body).

Record world : Type := World {
  environ : gmap string string;
  google : google_call -> outcome value;
  http : http_call -> outcome response;
  utcnow : Z;
  jwt_encode : value -> value -> outcome value }.

Inductive level : Type := INFO | WARNING | ERROR.

(** What a run leaves behind: the library calls it made, each with whether it
    completed without raising, and the lines it logged. *)
Inductive event : Type :=
| GoogleCall (c : google_call) (completed : bool)
| HttpCall (c : http_call) (completed : bool)
| Log (l : level) (msg : value).

Definition trace : Type := list event.

(** ** The monad of the script: the events of a run and its outcome *)

(** A computation is its outcome together with the events it left, in order.
    Nothing in the script reads the log back, so the events are only ever
    appended. *)
Definition M (A : Type) : Type := (outcome A * trace)%type.

Definition result {A : Type} (m : M A) : outcome A := fst m.
Definition events {A : Type} (m : M A) : trace := snd m.

#[global] Instance M_ret : MRet M := fun A a => (Ret a, []).

#[global] Instance M_bind : MBind M := fun A B f m =>
  match m with
  | (Ret a, t) => let '(o, t') := f a in (o, t ++ t')
  | (Raise e, t) => (Raise e, t)
  end.

Definition raise {A : Type} (e : exn) : M A := (Raise e, []).

Definition lift {A : Type} (o : outcome A) : M A := (o, []).

Definition emit (ev : event) : M unit := (Ret tt, [ev]).

Definition completed {A : Type} (o : outcome A) : bool :=
  match o with Ret _ => true | Raise _ => false end.

(** [try: body except ...]: [handlers e] is the body of the first [except]
    clause that matches [e], or [None] when no clause does and [e] goes on to
    the caller. *)
Definition try_except {A : Type} (body : M A) (handlers : exn -> option (M A)) : M A :=
  match body with
  | (Ret a, t) => (Ret a, t)
  | (Raise e, t) =>
      match handlers e with
      | Some h => let '(o, t') := h in (o, t ++ t')
      | None => (Raise e, t)
      end
  end.

Definition logging (l : level) (msg : value) : M unit := emit (Log l msg).

(** [d[k]] on a dict. *)
Definition getitem {V : Type} (d : gmap string V) (k : string) : M V :=
  match d !! k with
  | Some v => mret v
  | None => raise (Exn KeyError ("'" +:+ k +:+ "'"))
  end.

(** [v[k]] on a value returned by a library. *)
Definition value_getitem (v : value) (k : string) : M value :=
  match v with
  | VDict kvs =>
      match assoc k kvs with
      | Some x => mret x
      | None => raise (Exn KeyError ("'" +:+ k +:+ "'"))
      end
  | _ => raise (Exn TypeError "object is not subscriptable with a string")
  end.

(** [v.get(k, dflt)] on a value returned by a library. *)
Definition value_get (v : value) (k : string) (dflt : value) : M value :=
  match v with
  | VDict kvs => mret (default dflt (assoc k kvs))
  | _ => raise (Exn AttributeError "object has no attribute 'get'")
  end.

(** [for x in v]: the elements a value yields when iterated. *)
Definition iterate (v : value) : M (list value) :=
  match v with
  | VList l => mret l
  | VDict kvs => mret (map (fun kv => VStr (fst kv)) kvs)
  | VStr s => mret (map (fun c => VStr (String c EmptyString)) (list_ascii_of_string s))
  | _ => raise (Exn TypeError "object is not iterable")
  end.

Section Providers.

Context (w : world).

Definition call_google (c : google_call) : M value :=
  let o := google w c in
  emit (GoogleCall c (completed o));; lift o.

Definition call_http (c : http_call) : M response :=
  let o := http w c in
  emit (HttpCall c (completed o));; lift o.

(** [response.raise_for_status()] of the requests library: an [HTTPError] for
    a status code from 400 to 599, nothing otherwise. *)
Definition raise_for_status (r : response) : M unit :=
  if (400 <=? status_code r) && (status_code r <? 500)
  then raise (Exn HTTPError "Client Error")
  else if (500 <=? status_code r) && (status_code r <? 600)
  then raise (Exn HTTPError "Server Error")
  else mret tt.

(** [str(e)] inside an f-string. *)
Definition str_exn (e : exn) : value := VStr (exn_msg e).

(** *** onboard_google_workspace *)

Definition onboard_google_workspace
    (user_data : gmap string string) (config : gmap string value) : M bool :=
  file ← getitem config "service_account_file";
  scopes ← getitem config "admin_scopes";
  creds ← call_google (FromServiceAccountFile file scopes);
  directory_service ← call_google (Build creds);
  email ← getitem user_data "email";
  first_name ← getitem user_data "first_name";
  last_name ← getitem user_data "last_name";
  let password := default "DefaultWelcome1!" (user_data !! "password") in
  default_org_unit ← getitem config "default_org_unit";
  let org_unit := default default_org_unit (VStr <$> user_data !! "org_unit") in
  try_except
    (let user_body := VDict [
       ("primaryEmail", VStr email);
       ("name", VDict [("givenName", VStr first_name); ("familyName", VStr last_name)]);
       ("password", VStr password);
       ("orgUnitPath", org_unit);
       ("changePasswordAtNextLogin", VBool true)] in
     domain ← getitem config "domain";
     new_user ← call_google (UsersInsert directory_service domain user_body);
     primary ← value_getitem new_user "primaryEmail";
     logging INFO (VFmt [VStr "Google Workspace user created: "; primary]);;
     let group_member_body := VDict [("email", VStr email); ("role", VStr "MEMBER")] in
     group ← getitem config "onboarding_group_email";
     call_google (GroupsInsert directory_service group group_member_body);;
     group' ← getitem config "onboarding_group_email";
     logging INFO (VFmt [VStr "User "; VStr email; VStr " added to group "; group']);;
     mret true)
    (fun e => Some (
       logging ERROR (VFmt [VStr "Error during Google Workspace onboarding for ";
                            VStr email; VStr ": "; str_exn e]);;
       mret false)).

(** *** onboard_zoom *)

(** The names bound at module level when a provider runs: the four imports of
    lines 1-4, the configuration dicts, the provider functions and the
    variables the script has assigned so far.  No builtin is called
    [timedelta]. *)
Definition module_globals : list string :=
  ["os"; "json"; "logging"; "datetime";
   "GOOGLE_WORKSPACE_CONFIG"; "ZOOM_CONFIG"; "DROPBOX_CONFIG"; "SLACK_CONFIG";
   "onboard_google_workspace"; "onboard_zoom"; "onboard_dropbox";
   "welcome_slack_user"; "new_employee_data"; "gworkspace_success"].

(** Looking up a name that is neither local nor enclosing. *)
Definition load_global (name : string) : M unit :=
  if bool_decide (name ∈ module_globals) then mret tt
  else raise (Exn NameError ("name '" +:+ name +:+ "' is not defined")).

(** The nested function of [onboard_zoom]; times are seconds. *)
Definition generate_jwt (api_key api_secret : value) : M value :=
  load_global "datetime";;
  let now := utcnow w in
  load_global "timedelta";;
  let payload := VDict [("iss", api_key); ("exp", VInt (now + 30))] in
  lift (jwt_encode w payload api_secret).

(** [any(user.get('email') == email for user in users)]: the generator stops
    at the first match. *)
Fixpoint any_email (email : string) (users : list value) : M bool :=
  match users with
  | [] => mret false
  | user :: rest =>
      e ← value_get user "email" VNone;
      if eq_str e email then mret true else any_email email rest
  end.

Definition base_url : string := "https://api.zoom.us/v2".

(** Lines 90-117 of [onboard_zoom]: what follows the token. *)
Definition zoom_with_token
    (email : string) (config : gmap string value) (jwt_token : value) : M bool :=
  let headers := VDict [
    ("Authorization", VFmt [VStr "Bearer "; jwt_token]);
    ("Content-Type", VStr "application/json")] in
  let user_list_url := VFmt [VStr base_url; VStr "/users"] in
  try_except
    (response ← call_http (Get user_list_url headers
                   (VDict [("status", VStr "active"); ("page_size", VInt 100)]));
     raise_for_status response;;
     zoom_users_data ← lift (json response);
     users ← value_get zoom_users_data "users" (VList []);
     users ← iterate users;
     user_exists ← any_email email users;
     (if (user_exists : bool) then
       logging INFO (VFmt [VStr "Zoom user "; VStr email; VStr " already exists."]);;
       ((if truthy (default VNone (config !! "default_group_id")) then
          group_id ← getitem config "default_group_id";
          let group_url := VFmt [VStr base_url; VStr "/groups/"; group_id; VStr "/members"] in
          let add_payload := VDict [("members", VList [VDict [("email", VStr email)]])] in
          add_response ← call_http (Post group_url headers (Json add_payload));
          raise_for_status add_response;;
          group_id' ← getitem config "default_group_id";
          logging INFO (VFmt [VStr "User "; VStr email; VStr " added to Zoom group "; group_id'])
        else mret tt) : M unit);;
       mret true
     else
       logging WARNING (VFmt [VStr "Zoom user "; VStr email;
         VStr " not found. Account creation might be manual or via SSO."]);;
       mret true) : M bool)
    (fun e => Some (
       logging ERROR (VFmt [VStr "Error interacting with Zoom API for ";
                            VStr email; VStr ": "; str_exn e]);;
       mret false)).

Definition onboard_zoom
    (user_data : gmap string string) (config : gmap string value) : M bool :=
  api_key ← getitem config "api_key";
  api_secret ← getitem config "api_secret";
  email ← getitem user_data "email";
  jwt_token ← generate_jwt api_key api_secret;
  zoom_with_token email config jwt_token.

(** *** onboard_dropbox *)

(** Reading a local variable that no assignment has bound yet: the [e] of an
    [except] clause written without [as e]. *)
Definition load_unbound_local (name : string) : M value :=
  raise (Exn UnboundLocalError
    ("cannot access local variable '" +:+ name +:+ "' where it is not associated with a value")).

Definition dropbox_url : string := "https://api.dropboxapi.com/2/sharing/add_folder_member".

Definition onboard_dropbox
    (user_data : gmap string string) (config : gmap string value) : M bool :=
  access_token ← getitem config "access_token";
  email ← getitem user_data "email";
  folder_path ← getitem config "onboarding_folder_path";
  let headers := VDict [
    ("Authorization", VFmt [VStr "Bearer "; access_token]);
    ("Content-Type", VStr "application/json")] in
  let payload := VDict [
    ("share_path", folder_path);
    ("members", VList [VDict [
       ("member", VDict [(".tag", VStr "email"); ("email", VStr email)]);
       ("access_level", VStr "viewer")]])] in
  try_except
    (response ← call_http (Post (VStr dropbox_url) headers (Data payload));
     raise_for_status response;;
     logging INFO (VFmt [VStr "Invited "; VStr email; VStr " to Dropbox folder: "; folder_path]);;
     mret true)
    (fun e =>
       if is_RequestException e then Some (
         logging ERROR (VFmt [VStr "Error inviting "; VStr email;
                              VStr " to Dropbox folder: "; str_exn e]);;
         mret false)
       else if is_JSONDecodeError e then Some (
         e' ← load_unbound_local "e";
         logging ERROR (VFmt [VStr "Error decoding Dropbox response for ";
                              VStr email; VStr ": "; e']);;
         mret false)
       else None).

(** *** welcome_slack_user *)

Definition slack_api_url : string := "https://slack.com/api/chat.postMessage".

Definition welcome_slack_user
    (user_data : gmap string string) (config : gmap string value) : M bool :=
  bot_token ← getitem config "bot_token";
  channel_name ← getitem config "welcome_channel";
  email ← getitem user_data "email";
  first_name ← getitem user_data "first_name";
  last_name ← getitem user_data "last_name";
  let headers := VDict [
    ("Authorization", VFmt [VStr "Bearer "; bot_token]);
    ("Content-Type", VStr "application/json")] in
  let welcome_message := VFmt [
    VStr "Welcome to the team, <mailto:"; VStr email; VStr "|"; VStr first_name;
    VStr " "; VStr last_name; VStr ">! Please introduce yourself in this channel."] in
  let payload := VDict [("channel", channel_name); ("text", welcome_message)] in
  try_except
    (response ← call_http (Post (VStr slack_api_url) headers (Data payload));
     raise_for_status response;;
     response_data ← lift (json response);
     ok ← value_get response_data "ok" VNone;
     (if truthy ok then
       logging INFO (VFmt [VStr "Welcome message sent to "; channel_name;
                           VStr " for "; VStr email]);;
       mret true
     else
       error ← value_get response_data "error" VNone;
       logging ERROR (VFmt [VStr "Failed to send welcome message to Slack for ";
                            VStr email; VStr ": "; error]);;
       mret false) : M bool)
    (fun e =>
       if is_RequestException e then Some (
         logging ERROR (VFmt [VStr "Error sending message to Slack for ";
                              VStr email; VStr ": "; str_exn e]);;
         mret false)
       else if is_JSONDecodeError e then Some (
         e' ← load_unbound_local "e";
         logging ERROR (VFmt [VStr "Error decoding Slack response for ";
                              VStr email; VStr ": "; e']);;
         mret false)
       else None).

(** *** The script *)

(** [os.environ.get(name)] *)
Definition environ_get (name : string) : value :=
  match environ w !! name with
  | Some s => VStr s
  | None => VNone
  end.

Definition GOOGLE_WORKSPACE_CONFIG : gmap string value :=
  list_to_map [
    ("domain", VStr "yourcorpdomain.com");
    ("admin_scopes", VList [
       VStr "https://www.googleapis.com/auth/admin.directory.user";
       VStr "https://www.googleapis.com/auth/admin.directory.group"]);
    ("service_account_file", VStr "/path/to/your/gworkspace_service_account_key.json");
    ("default_org_unit", VStr "/Users");
    ("onboarding_group_email", VStr "all-employees@yourcorpdomain.com")].

Definition ZOOM_CONFIG : gmap string value :=
  list_to_map [
    ("api_key", environ_get "ZOOM_CORP_API_KEY");
    ("api_secret", environ_get "ZOOM_CORP_API_SECRET");
    ("default_group_id", VStr "YOUR_CORP_ZOOM_GROUP_ID")].

Definition DROPBOX_CONFIG : gmap string value :=
  list_to_map [
    ("access_token", environ_get "DROPBOX_CORP_ACCESS_TOKEN");
    ("onboarding_folder_path", VStr "/Company Shared/New Starters")].

Definition SLACK_CONFIG : gmap string value :=
  list_to_map [
    ("bot_token", environ_get "SLACK_CORP_BOT_TOKEN");
    ("welcome_channel", VStr "#general-announcements")].

Definition new_employee_data : gmap string string :=
  list_to_map [
    ("email", "newhire123@yourcorpdomain.com");
    ("first_name", "John");
    ("last_name", "Doe");
    ("org_unit", "/Users/New Employees")].

(** Python's [all] on a list of booleans. *)
Definition all_ (l : list bool) : bool := forallb (fun b => b) l.

(** Lines 205-208: the aggregate line. *)
Definition report (user_data : gmap string string) (g z d s : bool) : M unit :=
  if all_ [g; z; d; s] then
    email ← getitem user_data "email";
    logging INFO (VFmt [VStr "Onboarding process completed successfully for "; VStr email])
  else
    email ← getitem user_data "email";
    logging WARNING (VFmt [VStr "Onboarding process completed for "; VStr email;
      VStr " with some potential failures. Check logs for details."]).

(** Lines 198-208, for any employee record and any four providers. *)
Definition run_onboarding
    (directory conferencing file_share chat : gmap string string -> M bool)
    (user_data : gmap string string) : M unit :=
  email ← getitem user_data "email";
  logging INFO (VFmt [VStr "Starting onboarding process for "; VStr email]);;
  gworkspace_success ← directory user_data;
  zoom_success ← conferencing user_data;
  dropbox_success ← file_share user_data;
  slack_success ← chat user_data;
  report user_data gworkspace_success zoom_success dropbox_success slack_success.

(** The script's providers, each with its configuration. *)
Definition onboard
    (gcfg zcfg dcfg scfg : gmap string value) (user_data : gmap string string) : M unit :=
  run_onboarding
    (fun u => onboard_google_workspace u gcfg)
    (fun u => onboard_zoom u zcfg)
    (fun u => onboard_dropbox u dcfg)
    (fun u => welcome_slack_user u scfg)
    user_data.

Definition main : M unit :=
  onboard GOOGLE_WORKSPACE_CONFIG ZOOM_CONFIG DROPBOX_CONFIG SLACK_CONFIG new_employee_data.

End Providers.

(** ** Worlds used in the examples *)

Definition environ_set : gmap string string :=
  list_to_map [("ZOOM_CORP_API_KEY", "key"); ("ZOOM_CORP_API_SECRET", "secret");
               ("DROPBOX_CORP_ACCESS_TOKEN", "dbx"); ("SLACK_CORP_BOT_TOKEN", "xoxb")].

(** The Google libraries load the credentials, build the client and answer
    each insertion with the resource that was sent. *)
Definition google_ok (c : google_call) : outcome value :=
  match c with
  | FromServiceAccountFile _ _ => Ret (VStr "credentials")
  | Build _ => Ret (VStr "service")
  | UsersInsert _ _ body => Ret body
  | GroupsInsert _ _ body => Ret body
  end.

(** The Google libraries cannot read the key file. *)
Definition google_no_key_file (c : google_call) : outcome value :=
  match c with
  | FromServiceAccountFile _ _ =>
      Raise (Exn (OtherError "FileNotFoundError") "No such file or directory")
  | _ => google_ok c
  end.

(** A world in which every HTTP request has the outcome [o]. *)
Definition world_http (o : outcome response) : world :=
  {| environ := environ_set;
     google := google_ok;
     http := fun _ => o;
     utcnow := 0;
     jwt_encode := fun _ _ => Ret (VStr "token") |}.

(** Every library call succeeds; HTTP requests answer 200 with the body
    [body]. *)
Definition world_ok (body : value) : world :=
  world_http (Ret (Response 200 (Ret body))).

(** The directory refuses the new account. *)
Definition google_conflict (c : google_call) : outcome value :=
  match c with
  | UsersInsert _ _ _ => Raise (Exn (OtherError "HttpError") "Entity already exists.")
  | _ => google_ok c
  end.

Definition world_conflict : world :=
  {| environ := environ_set;
     google := google_conflict;
     http := fun _ => Ret (Response 200 (Ret (VDict [("ok", VBool true)])));
     utcnow := 0;
     jwt_encode := fun _ _ => Ret (VStr "token") |}.

Definition world_no_key_file : world :=
  {| environ := environ_set;
     google := google_no_key_file;
     http := fun _ => Ret (Response 200 (Ret (VDict [("ok", VBool true)])));
     utcnow := 0;
     jwt_encode := fun _ _ => Ret (VStr "token") |}.

(** ** Requests, log lines and preconditions of the providers *)

Definition timedelta_error : exn := Exn NameError "name 'timedelta' is not defined".

Definition unbound_e_error : exn :=
  Exn UnboundLocalError
    "cannot access local variable 'e' where it is not associated with a value".

(** The statuses for which [raise_for_status] raises. *)
Definition error_status (r : response) : bool :=
  (400 <=? status_code r) && (status_code r <? 600).

Section ZoomTerms.

Context (email : string) (jwt_token : value).

Definition zoom_headers : value :=
  VDict [("Authorization", VFmt [VStr "Bearer "; jwt_token]);
         ("Content-Type", VStr "application/json")].

(** The one listing request: active users, a page of 100. *)
Definition zoom_list_call : http_call :=
  Get (VFmt [VStr base_url; VStr "/users"]) zoom_headers
      (VDict [("status", VStr "active"); ("page_size", VInt 100)]).

Definition zoom_not_found_line : event :=
  Log WARNING (VFmt [VStr "Zoom user "; VStr email;
    VStr " not found. Account creation might be manual or via SSO."]).

End ZoomTerms.

Section DropboxTerms.

Context (access_token folder_path : value) (email : string).

Definition dropbox_call : http_call :=
  Post (VStr dropbox_url)
    (VDict [("Authorization", VFmt [VStr "Bearer "; access_token]);
            ("Content-Type", VStr "application/json")])
    (Data (VDict [
       ("share_path", folder_path);
       ("members", VList [VDict [
          ("member", VDict [(".tag", VStr "email"); ("email", VStr email)]);
          ("access_level", VStr "viewer")]])])).

Definition dropbox_invited_line : event :=
  Log INFO (VFmt [VStr "Invited "; VStr email; VStr " to Dropbox folder: "; folder_path]).

(** The line of the [RequestException] clause. *)
Definition dropbox_error_line (msg : string) : event :=
  Log ERROR (VFmt [VStr "Error inviting "; VStr email; VStr " to Dropbox folder: "; VStr msg]).

(** The line the [JSONDecodeError] clause is written to log. *)
Definition dropbox_decode_line (msg : string) : event :=
  Log ERROR (VFmt [VStr "Error decoding Dropbox response for "; VStr email; VStr ": "; VStr msg]).

End DropboxTerms.

Section SlackTerms.

Context (w : world).
Context (bot_token channel_name : value) (email first_name last_name : string).

Definition slack_call : http_call :=
  Post (VStr slack_api_url)
    (VDict [("Authorization", VFmt [VStr "Bearer "; bot_token]);
            ("Content-Type", VStr "application/json")])
    (Data (VDict [
       ("channel", channel_name);
       ("text", VFmt [
          VStr "Welcome to the team, <mailto:"; VStr email; VStr "|"; VStr first_name;
          VStr " "; VStr last_name;
          VStr ">! Please introduce yourself in this channel."])])).

Definition slack_sent_line : event :=
  Log INFO (VFmt [VStr "Welcome message sent to "; channel_name; VStr " for "; VStr email]).

(** The line for a body that does not acknowledge: it ends with the body's
    [error] entry. *)
Definition slack_rejected_line (error : value) : event :=
  Log ERROR (VFmt [VStr "Failed to send welcome message to Slack for ";
                   VStr email; VStr ": "; error]).

Definition slack_error_line (msg : string) : event :=
  Log ERROR (VFmt [VStr "Error sending message to Slack for "; VStr email;
                   VStr ": "; VStr msg]).

(** The [try] statement of the notifier, once its five subscripts are read. *)
Definition slack_try : M bool :=
  try_except
    (response ← call_http w slack_call;
     raise_for_status response;;
     response_data ← lift (json response);
     ok ← value_get response_data "ok" VNone;
     (if truthy ok then
        emit slack_sent_line;; mret true
      else
        error ← value_get response_data "error" VNone;
        emit (slack_rejected_line error);; mret false) : M bool)
    (fun e =>
       if is_RequestException e then Some (
         emit (slack_error_line (exn_msg e));; mret false)
       else if is_JSONDecodeError e then Some (
         e' ← load_unbound_local "e";
         logging ERROR (VFmt [VStr "Error decoding Slack response for ";
                              VStr email; VStr ": "; e']);;
         mret false)
       else None).

End SlackTerms.

(** The body of the scenario: [{"ok": false, "error": "channel_not_found"}]. *)
Definition channel_not_found : value :=
  VDict [("ok", VBool false); ("error", VStr "channel_not_found")].

Section DirectoryTerms.

Context (user_data : gmap string string).

(** The password and the org unit of the request: the record's, or else the
    placeholder and the configured default. *)
Definition request_password : string :=
  default "DefaultWelcome1!" (user_data !! "password").

Definition request_org_unit (default_org_unit : value) : value :=
  default default_org_unit (VStr <$> user_data !! "org_unit").

Context (file scopes default_org_unit domain group credentials service : value).
Context (email first_name last_name : string).

Definition create_user_call : google_call :=
  UsersInsert service domain (VDict [
    ("primaryEmail", VStr email);
    ("name", VDict [("givenName", VStr first_name); ("familyName", VStr last_name)]);
    ("password", VStr request_password);
    ("orgUnitPath", request_org_unit default_org_unit);
    ("changePasswordAtNextLogin", VBool true)]).

Definition add_member_call : google_call :=
  GroupsInsert service group (VDict [("email", VStr email); ("role", VStr "MEMBER")]).

Definition directory_setup : trace :=
  [GoogleCall (FromServiceAccountFile file scopes) true;
   GoogleCall (Build credentials) true].

Definition directory_error_line (e : exn) : event :=
  Log ERROR (VFmt [VStr "Error during Google Workspace onboarding for ";
                   VStr email; VStr ": "; str_exn e]).

Definition directory_created_line (primary : value) : event :=
  Log INFO (VFmt [VStr "Google Workspace user created: "; primary]).

Definition directory_added_line : event :=
  Log INFO (VFmt [VStr "User "; VStr email; VStr " added to group "; group]).

End DirectoryTerms.

(** The record and configuration hold what the directory provider reads,
    and the credentials load and the client builds. *)
Definition directory_ready
    (w : world) (user_data : gmap string string) (config : gmap string value)
    (file scopes default_org_unit domain group credentials service : value)
    (email first_name last_name : string) : Prop :=
  config !! "service_account_file" = Some file /\
  config !! "admin_scopes" = Some scopes /\
  config !! "default_org_unit" = Some default_org_unit /\
  config !! "domain" = Some domain /\
  config !! "onboarding_group_email" = Some group /\
  user_data !! "email" = Some email /\
  user_data !! "first_name" = Some first_name /\
  user_data !! "last_name" = Some last_name /\
  google w (FromServiceAccountFile file scopes) = Ret credentials /\
  google w (Build credentials) = Ret service.

(** The record and configuration hold what the Dropbox provider reads. *)
Definition dropbox_ready
    (user_data : gmap string string) (config : gmap string value)
    (access_token folder_path : value) (email : string) : Prop :=
  config !! "access_token" = Some access_token /\
  user_data !! "email" = Some email /\
  config !! "onboarding_folder_path" = Some folder_path.

(** The record and configuration hold what the Slack notifier reads. *)
Definition slack_ready
    (user_data : gmap string string) (config : gmap string value)
    (bot_token channel_name : value) (email first_name last_name : string) : Prop :=
  config !! "bot_token" = Some bot_token /\
  config !! "welcome_channel" = Some channel_name /\
  user_data !! "email" = Some email /\
  user_data !! "first_name" = Some first_name /\
  user_data !! "last_name" = Some last_name.

Definition start_line (email : string) : event :=
  Log INFO (VFmt [VStr "Starting onboarding process for "; VStr email]).

Definition success_line (email : string) : event :=
  Log INFO (VFmt [VStr "Onboarding process completed successfully for "; VStr email]).

Definition warning_line (email : string) : event :=
  Log WARNING (VFmt [VStr "Onboarding process completed for "; VStr email;
    VStr " with some potential failures. Check logs for details."]).

(** ** Further vocabulary: the Zoom group request, error lines, counting *)

Section ZoomGroupTerms.

Context (w : world) (email : string) (jwt_token group_id : value).

(** The request of lines 106-108, which adds the employee to the group. *)
Definition zoom_group_call : http_call :=
  Post (VFmt [VStr base_url; VStr "/groups/"; group_id; VStr "/members"])
       (zoom_headers jwt_token)
       (Json (VDict [("members", VList [VDict [("email", VStr email)]])])).

Definition zoom_exists_line : event :=
  Log INFO (VFmt [VStr "Zoom user "; VStr email; VStr " already exists."]).

Definition zoom_added_line : event :=
  Log INFO (VFmt [VStr "User "; VStr email; VStr " added to Zoom group "; group_id]).

Definition zoom_error_line (msg : string) : event :=
  Log ERROR (VFmt [VStr "Error interacting with Zoom API for "; VStr email;
                   VStr ": "; VStr msg]).

(** The listing is answered without error status by a body whose [users]
    can be walked through, and [any] finds the employee or not. *)
Definition zoom_page_lists (found : bool) : Prop :=
  exists resp body users l,
    http w (zoom_list_call jwt_token) = Ret resp /\
    error_status resp = false /\
    json resp = Ret body /\
    value_get body "users" (VList []) = (Ret users, []) /\
    iterate users = (Ret l, []) /\
    any_email email l = (Ret found, []).

(** The first statements of the [try] of [onboard_zoom], lines 98-101: the
    listing request and the search through its answer. *)
Definition zoom_listing : M bool :=
  response ← call_http w (zoom_list_call jwt_token);
  raise_for_status response;;
  zoom_users_data ← lift (json response);
  users ← value_get zoom_users_data "users" (VList []);
  users ← iterate users;
  any_email email users.

End ZoomGroupTerms.

(** A listed user carrying exactly this email. *)
Definition lists_email (email : string) (user : value) : Prop :=
  exists kvs, user = VDict kvs /\ assoc "email" kvs = Some (VStr email).

(** A listed user that is a dict with another email, or none. *)
Definition other_user (email : string) (user : value) : Prop :=
  exists kvs, user = VDict kvs /\
    eq_str (default VNone (assoc "email" kvs)) email = false.

(** The directory provider gets as far as its [try]: the credentials load,
    the client builds, and the subscripts of lines 44-48 succeed. *)
Definition directory_reaches_try
    (w : world) (user_data : gmap string string) (config : gmap string value)
    (file scopes default_org_unit credentials service : value)
    (email first_name last_name : string) : Prop :=
  config !! "service_account_file" = Some file /\
  config !! "admin_scopes" = Some scopes /\
  google w (FromServiceAccountFile file scopes) = Ret credentials /\
  google w (Build credentials) = Ret service /\
  user_data !! "email" = Some email /\
  user_data !! "first_name" = Some first_name /\
  user_data !! "last_name" = Some last_name /\
  config !! "default_org_unit" = Some default_org_unit.

Definition is_error_log (ev : event) : bool :=
  match ev with
  | Log ERROR _ => true
  | _ => false
  end.

Definition is_http_call (ev : event) : bool :=
  match ev with
  | HttpCall _ _ => true
  | _ => false
  end.

(** The number of error lines in a log. *)
Definition count_errors (t : trace) : nat := length (filter is_error_log t).

(** The aggregate lines of the script. *)
Definition is_aggregate_line (ev : event) : Prop :=
  exists email, ev = success_line email \/ ev = warning_line email.

(** Unfolding a provider down to the monad's pairs, and splitting on every
    lookup and library answer. *)
Ltac unfold_all :=
  unfold onboard_google_workspace, onboard_dropbox, welcome_slack_user,
    call_google, call_http, getitem, value_getitem, value_get,
    load_unbound_local, raise_for_status, is_RequestException,
    is_JSONDecodeError;
  unfold mbind, M_bind, mret, M_ret, raise, lift, logging, emit, try_except,
    result, events.

Ltac split_run := repeat (cbn; case_match; simplify_eq).

(** ** Reasoning about runs *)

(** One step of a run: the monad's operations, reduced. *)
Ltac run :=
  cbn [mbind M_bind mret M_ret raise lift logging emit try_except
       result events fst snd app completed].

(** Peeling membership in an explicit list of events. *)
Ltac in_events H :=
  cbn in H;
  repeat (destruct H as [H|H]; [try discriminate H|]);
  try contradiction.

(** Left unit of the monad. *)
Lemma bind_ret {A B : Type} (a : A) (f : A -> M B) :
  (((Ret a, []) : M A) ≫= f) = f a.
Proof. unfold mbind, M_bind. destruct (f a); reflexivity. Qed.

(** A lookup that succeeds makes the subscript return. *)
Lemma getitem_Some {V : Type} (d : gmap string V) (k : string) (v : V) :
  d !! k = Some v -> getitem d k = (Ret v, []).
Proof. intros H. unfold getitem. rewrite H. reflexivity. Qed.

Lemma getitem_None {V : Type} (d : gmap string V) (k : string) :
  d !! k = None -> getitem d k = (Raise (Exn KeyError ("'" +:+ k +:+ "'")), []).
Proof. intros H. unfold getitem. rewrite H. reflexivity. Qed.

(** ** The Zoom provider *)

Section Zoom.

Context (w : world).

(** Line 4 imports [datetime] from the module [datetime], and nothing binds
    [timedelta]. *)
Lemma load_global_datetime : load_global "datetime" = (Ret tt, []).
Proof. reflexivity. Qed.

Lemma load_global_timedelta : load_global "timedelta" = (Raise timedelta_error, []).
Proof. reflexivity. Qed.

(** The token is never built: the name [timedelta] is looked up before
    [jwt.encode] is reached, and the module does not bind it. *)
Lemma generate_jwt_raises (api_key api_secret : value) :
  generate_jwt w api_key api_secret = (Raise timedelta_error, []).
Proof. reflexivity. Qed.

(** No call of [onboard_zoom] returns, and none leaves an event. *)
Lemma onboard_zoom_raises (user_data : gmap string string) (config : gmap string value) :
  exists e, onboard_zoom w user_data config = (Raise e, []).
Proof.
  unfold onboard_zoom, getitem.
  destruct (config !! "api_key") as [k|]; [|eexists; reflexivity].
  destruct (config !! "api_secret") as [s|]; [|eexists; reflexivity].
  destruct (user_data !! "email") as [e|]; [|eexists; reflexivity].
  exists timedelta_error. reflexivity.
Qed.

End Zoom.

(** C4. Every call of [onboard_zoom] fails instead of returning, without
    having issued a request or logged a line; and whenever the three
    subscripts that precede the token succeed (the configuration holds
    [api_key] and [api_secret], the record holds [email]), the failure is the
    [NameError] for [timedelta], raised while [generate_jwt] computes the
    expiry. *)
Theorem onboard_zoom_timedelta
    (w : world) (user_data : gmap string string) (config : gmap string value) :
  (exists e, onboard_zoom w user_data config = (Raise e, [])) /\
  (is_Some (config !! "api_key") ->
   is_Some (config !! "api_secret") ->
   is_Some (user_data !! "email") ->
   onboard_zoom w user_data config = (Raise timedelta_error, []) /\
   forall api_key api_secret,
     generate_jwt w api_key api_secret = (Raise timedelta_error, [])).
Proof.
  split; [apply onboard_zoom_raises|].
  intros [k Hk] [s Hs] [e He]. split; [|apply generate_jwt_raises].
  unfold onboard_zoom.
  rewrite (getitem_Some _ _ _ Hk), (getitem_Some _ _ _ Hs), (getitem_Some _ _ _ He).
  reflexivity.
Qed.

Lemma onboard_zoom_timedelta_witness :
  onboard_zoom (world_ok VNone) new_employee_data (ZOOM_CONFIG (world_ok VNone))
  = (Raise timedelta_error, []).
Proof.
  apply (proj2 (onboard_zoom_timedelta (world_ok VNone) new_employee_data
                  (ZOOM_CONFIG (world_ok VNone))));
    vm_compute; eexists; reflexivity.
Defined.

(** Reading a value leaves no event. *)
Lemma value_get_events (v : value) (k : string) (dflt : value) :
  events (value_get v k dflt) = [].
Proof. destruct v; reflexivity. Qed.

Lemma value_getitem_events (v : value) (k : string) :
  events (value_getitem v k) = [].
Proof. destruct v; try reflexivity. cbn. destruct (assoc k kvs); reflexivity. Qed.

Lemma iterate_events (v : value) : events (iterate v) = [].
Proof. destruct v; reflexivity. Qed.

(** ** HTTP statuses *)

Lemma raise_for_status_passes (r : response) :
  error_status r = false -> raise_for_status r = (Ret tt, []).
Proof.
  unfold error_status, raise_for_status. intros H.
  destruct (400 <=? status_code r) eqn:H4; destruct (status_code r <? 500) eqn:H5;
    destruct (500 <=? status_code r) eqn:H6; destruct (status_code r <? 600) eqn:H7;
    simpl in *; try reflexivity; try discriminate; lia.
Qed.

Lemma raise_for_status_raises (r : response) :
  error_status r = true ->
  exists msg, raise_for_status r = (Raise (Exn HTTPError msg), []).
Proof.
  unfold error_status, raise_for_status. intros H.
  destruct (400 <=? status_code r) eqn:H4; destruct (status_code r <? 500) eqn:H5;
    destruct (500 <=? status_code r) eqn:H6; destruct (status_code r <? 600) eqn:H7;
    simpl in *; try discriminate; try (eexists; reflexivity); lia.
Qed.

Lemma raise_for_status_cases (r : response) :
  raise_for_status r = (Ret tt, []) /\ error_status r = false \/
  (exists msg, raise_for_status r = (Raise (Exn HTTPError msg), [])) /\ error_status r = true.
Proof.
  destruct (error_status r) eqn:H.
  - right. split; [apply raise_for_status_raises; exact H | reflexivity].
  - left. split; [apply raise_for_status_passes; exact H | reflexivity].
Qed.

(** ** What the Zoom provider does once it holds a token *)

Section ZoomWithToken.

Context (w : world) (email : string) (config : gmap string value) (jwt_token : value).

Local Abbreviation list_call := (zoom_list_call jwt_token).

Lemma any_email_events (users : list value) :
  events (any_email email users) = [].
Proof.
  induction users as [|u rest IH]; [reflexivity|].
  cbn [any_email]. destruct u; try reflexivity.
  unfold value_get. cbn [mbind M_bind mret M_ret].
  destruct (eq_str _ email); [reflexivity|].
  destruct (any_email email rest) as [o t]. cbn in IH. subst t. reflexivity.
Qed.

(** [any] says no exactly when every listed user is a dict whose [email] is
    not the employee's. *)
Lemma any_email_false (users : list value) :
  any_email email users = (Ret false, []) <->
  Forall (fun u => exists kvs, u = VDict kvs /\
                     eq_str (default VNone (assoc "email" kvs)) email = false) users.
Proof.
  induction users as [|u rest IH].
  - split; [constructor | reflexivity].
  - cbn [any_email]. split.
    + intros H. destruct u; try discriminate.
      unfold value_get in H. cbn [mbind M_bind mret M_ret] in H.
      destruct (eq_str (default VNone (assoc "email" kvs)) email) eqn:E; [discriminate|].
      constructor; [eauto|]. apply IH.
      destruct (any_email email rest) as [o t]. cbn in H. exact H.
    + intros H. inversion H as [|? ? (kvs & -> & E) Hrest]; subst.
      unfold value_get. cbn [mbind M_bind mret M_ret]. rewrite E.
      apply IH in Hrest. rewrite Hrest. reflexivity.
Qed.

(** With a token, an employee who is not on the listed page is reported with
    one warning, no further request, and [True]. *)
Lemma zoom_with_token_not_listed (resp : response) (body users : value) (l : list value) :
  http w list_call = Ret resp ->
  error_status resp = false ->
  json resp = Ret body ->
  value_get body "users" (VList []) = (Ret users, []) ->
  iterate users = (Ret l, []) ->
  any_email email l = (Ret false, []) ->
  zoom_with_token w email config jwt_token
  = (Ret true, [HttpCall list_call true; (zoom_not_found_line email)]).
Proof.
  intros Hhttp Hst Hjson Hget Hit Hany.
  unfold zoom_with_token, call_http. fold (zoom_headers jwt_token). fold list_call.
  rewrite Hhttp. run. rewrite (raise_for_status_passes _ Hst). run.
  rewrite Hjson. run. rewrite Hget. run. rewrite Hit. run.
  rewrite Hany. reflexivity.
Qed.

(** X7. With a token, the listing request is the first event and the only
    [Get]: whatever the page holds, no second page is asked for. *)
Lemma zoom_with_token_one_page :
  exists c rest,
    events (zoom_with_token w email config jwt_token) = HttpCall list_call c :: rest /\
    forall url headers params c', ~ In (HttpCall (Get url headers params) c') rest.
Proof.
  unfold zoom_with_token, call_http. fold (zoom_headers jwt_token). fold list_call.
  destruct (http w list_call) as [resp|e].
  2:{ eexists _, _. split; [reflexivity|]. cbn. intros ? ? ? ? [H|[]]. discriminate. }
  run.
  destruct (raise_for_status_cases resp) as [[-> _]|[[msg ->] _]].
  2:{ eexists _, _. split; [reflexivity|]. cbn. intros ? ? ? ? [H|[]]. discriminate. }
  run.
  destruct (json resp) as [body|e].
  2:{ eexists _, _. split; [reflexivity|]. cbn. intros ? ? ? ? [H|[]]. discriminate. }
  destruct (value_get body "users" (VList [])) as [[users|e] t] eqn:Hget.
  all: pose proof (value_get_events body "users" (VList [])) as Hev;
    rewrite Hget in Hev; cbn in Hev; subst t.
  2:{ eexists _, _. split; [reflexivity|]. cbn. intros ? ? ? ? [H|[]]. discriminate. }
  run.
  destruct (iterate users) as [[l|e] t] eqn:Hit.
  all: pose proof (iterate_events users) as Hev';
    rewrite Hit in Hev'; cbn in Hev'; subst t.
  2:{ eexists _, _. split; [reflexivity|]. cbn. intros ? ? ? ? [H|[]]. discriminate. }
  run.
  pose proof (any_email_events l) as Hev.
  destruct (any_email email l) as [[[|]|e] t]; cbn in Hev; subst t.
  - destruct (truthy (default VNone (config !! "default_group_id"))).
    + unfold getitem. destruct (config !! "default_group_id") as [gid|].
      2:{ eexists _, _. split; [reflexivity|]. cbn.
          intros ? ? ? ? [H|[H|[]]]; discriminate. }
      run.
      destruct (http w _) as [resp'|e].
      2:{ eexists _, _. split; [reflexivity|]. cbn.
          intros ? ? ? ? [H|[H|[H|[]]]]; discriminate. }
      run.
      destruct (raise_for_status_cases resp') as [[-> _]|[[msg ->] _]];
        (eexists _, _; split; [reflexivity|]); cbn;
        intros ? ? ? ? H; repeat (destruct H as [H|H]; try discriminate); exact H.
    + eexists _, _. split; [reflexivity|]. cbn. intros ? ? ? ? [H|[]]. discriminate.
  - eexists _, _. split; [reflexivity|]. cbn. intros ? ? ? ? [H|[]]. discriminate.
  - eexists _, _. split; [reflexivity|]. cbn. intros ? ? ? ? [H|[]]. discriminate.
Qed.

End ZoomWithToken.

(** C7. The record and configuration of the script, in a world where the
    listing answers 200 with no user at all.  Lines 90-117, given a token,
    log the warning and return [True]; the provider itself never gets there:
    it raises the [NameError] of [generate_jwt], logs nothing and returns
    nothing. *)
Theorem onboard_zoom_absent_email_fails :
  let w := world_ok (VDict [("users", VList [])]) in
  let email := "newhire123@yourcorpdomain.com" in
  zoom_with_token w email (ZOOM_CONFIG w) (VStr "token")
    = (Ret true, [HttpCall (zoom_list_call (VStr "token")) true; zoom_not_found_line email]) /\
  onboard_zoom w new_employee_data (ZOOM_CONFIG w) = (Raise timedelta_error, []).
Proof. split; reflexivity. Qed.

(** C10. The employee has an account, but the one page of active users that
    the listing returns holds other people only.  Lines 90-117, given a
    token, ask for that single page, treat the employee as not found and
    return [True] without a group request; the provider itself issues no
    listing request at all, because it raises before. *)
Theorem onboard_zoom_single_page_fails :
  let page := VDict [("users", VList [
                VDict [("email", VStr "first.of.page@yourcorpdomain.com")];
                VDict [("email", VStr "last.of.page@yourcorpdomain.com")]])] in
  let w := world_ok page in
  let email := "newhire123@yourcorpdomain.com" in
  zoom_with_token w email (ZOOM_CONFIG w) (VStr "token")
    = (Ret true, [HttpCall (zoom_list_call (VStr "token")) true; zoom_not_found_line email]) /\
  zoom_list_call (VStr "token")
    = Get (VFmt [VStr "https://api.zoom.us/v2"; VStr "/users"]) (zoom_headers (VStr "token"))
          (VDict [("status", VStr "active"); ("page_size", VInt 100)]) /\
  onboard_zoom w new_employee_data (ZOOM_CONFIG w) = (Raise timedelta_error, []).
Proof. repeat split; reflexivity. Qed.

(** ** The Dropbox provider *)

Section Dropbox.

Context (w : world) (user_data : gmap string string) (config : gmap string value).
Context (access_token folder_path : value) (email : string).

Local Abbreviation call := (dropbox_call access_token folder_path email).

Hypothesis Htoken : config !! "access_token" = Some access_token.
Hypothesis Hemail : user_data !! "email" = Some email.
Hypothesis Hpath : config !! "onboarding_folder_path" = Some folder_path.

Lemma onboard_dropbox_unfold :
  onboard_dropbox w user_data config =
  try_except
    (response ← call_http w call;
     raise_for_status response;;
     emit (dropbox_invited_line folder_path email);;
     mret true)
    (fun e =>
       if is_RequestException e then Some (
         emit (dropbox_error_line email (exn_msg e));; mret false)
       else if is_JSONDecodeError e then Some (
         e' ← load_unbound_local "e";
         logging ERROR (VFmt [VStr "Error decoding Dropbox response for ";
                              VStr email; VStr ": "; e']);;
         mret false)
       else None).
Proof.
  unfold onboard_dropbox.
  rewrite (getitem_Some _ _ _ Htoken), (getitem_Some _ _ _ Hemail),
    (getitem_Some _ _ _ Hpath), !bind_ret.
  reflexivity.
Qed.

Lemma onboard_dropbox_success (resp : response) :
  http w call = Ret resp ->
  error_status resp = false ->
  onboard_dropbox w user_data config
  = (Ret true, [HttpCall call true; (dropbox_invited_line folder_path email)]).
Proof.
  intros Hh Hs. rewrite onboard_dropbox_unfold. unfold call_http.
  rewrite Hh. run. rewrite (raise_for_status_passes _ Hs). reflexivity.
Qed.

Lemma onboard_dropbox_http_error (resp : response) :
  http w call = Ret resp ->
  error_status resp = true ->
  exists msg, onboard_dropbox w user_data config
  = (Ret false, [HttpCall call true; dropbox_error_line email msg]).
Proof.
  intros Hh Hs. rewrite onboard_dropbox_unfold. unfold call_http.
  rewrite Hh. run. destruct (raise_for_status_raises _ Hs) as [msg ->].
  exists msg. reflexivity.
Qed.

Lemma onboard_dropbox_request_exception (e : exn) :
  http w call = Raise e ->
  is_RequestException e = true ->
  onboard_dropbox w user_data config
  = (Ret false, [HttpCall call false; dropbox_error_line email (exn_msg e)]).
Proof.
  intros Hh He. rewrite onboard_dropbox_unfold. unfold call_http.
  rewrite Hh. run. rewrite He. reflexivity.
Qed.

(** A decode error that is not a [RequestException] reaches the second
    clause, whose f-string reads the unbound [e]: nothing is logged and the
    provider raises. *)
Lemma onboard_dropbox_decode_error (e : exn) :
  http w call = Raise e ->
  is_RequestException e = false ->
  is_JSONDecodeError e = true ->
  onboard_dropbox w user_data config
  = (Raise unbound_e_error, [HttpCall call false]).
Proof.
  intros Hh He Hd. rewrite onboard_dropbox_unfold. unfold call_http.
  rewrite Hh. run. rewrite He, Hd. reflexivity.
Qed.

(** Any other exception goes through both clauses. *)
Lemma onboard_dropbox_other_exception (e : exn) :
  http w call = Raise e ->
  is_RequestException e = false ->
  is_JSONDecodeError e = false ->
  onboard_dropbox w user_data config = (Raise e, [HttpCall call false]).
Proof.
  intros Hh He Hd. rewrite onboard_dropbox_unfold. unfold call_http.
  rewrite Hh. run. rewrite He, Hd. reflexivity.
Qed.

End Dropbox.

(** The clause for [json.JSONDecodeError] is entered only if the HTTP layer
    itself raises that error; nothing in the [try] decodes a body.  Entered,
    it logs nothing and raises [UnboundLocalError], because it reads an [e]
    it never bound.  The decode error of the requests library, which is also
    a [RequestException], is taken by the first clause and logged under the
    message of the HTTP failures. *)
Theorem onboard_dropbox_decode_error_raises :
  let decode_error := Exn JSONDecodeError "Expecting value: line 1 column 1 (char 0)" in
  let w := world_http (Raise decode_error) in
  let call := dropbox_call (VStr "dbx") (VStr "/Company Shared/New Starters")
                "newhire123@yourcorpdomain.com" in
  onboard_dropbox w new_employee_data (DROPBOX_CONFIG w)
    = (Raise unbound_e_error, [HttpCall call false]) /\
  let decode_error' := Exn RequestsJSONDecodeError "Expecting value: line 1 column 1 (char 0)" in
  let w' := world_http (Raise decode_error') in
  onboard_dropbox w' new_employee_data (DROPBOX_CONFIG w')
    = (Ret false, [HttpCall call false;
                   dropbox_error_line "newhire123@yourcorpdomain.com"
                     "Expecting value: line 1 column 1 (char 0)"]).
Proof. split; reflexivity. Qed.

(** C5 as it is worded fails on an answer 200 whose body cannot be decoded:
    the provider never reads the body, so it returns [True] and logs the
    invitation, where the claim asks for an error line and [False]. *)
Lemma onboard_dropbox_undecodable_body :
  let undecodable := Raise (Exn JSONDecodeError "Expecting value: line 1 column 1 (char 0)") in
  let w := world_http (Ret (Response 200 undecodable)) in
  onboard_dropbox w new_employee_data (DROPBOX_CONFIG w)
  = (Ret true,
     [HttpCall (dropbox_call (VStr "dbx") (VStr "/Company Shared/New Starters")
                  "newhire123@yourcorpdomain.com") true;
      Log INFO (VFmt [VStr "Invited "; VStr "newhire123@yourcorpdomain.com";
                      VStr " to Dropbox folder: ";
                      VStr "/Company Shared/New Starters"])]).
Proof. reflexivity. Qed.

(** C5, as the code has it.  With the three entries it reads present, the
    Dropbox provider logs an HTTP-level failure (a [RequestException] raised
    by the request, or an answer with a status from 400 to 599) under its
    message [Error inviting ...] and returns [False].  It never decodes the
    response body: an answer with any other status gives [True] and the
    line [Invited ...], whatever [response.json()] would do. *)
Theorem onboard_dropbox_failures
    (w : world) (user_data : gmap string string) (config : gmap string value)
    (access_token folder_path : value) (email : string) :
  dropbox_ready user_data config access_token folder_path email ->
  let call := dropbox_call access_token folder_path email in
  let error_line := fun msg : string =>
    Log ERROR (VFmt [VStr "Error inviting "; VStr email;
                     VStr " to Dropbox folder: "; VStr msg]) in
  (forall e, http w call = Raise e -> is_RequestException e = true ->
     onboard_dropbox w user_data config
     = (Ret false, [HttpCall call false; error_line (exn_msg e)])) /\
  (forall status body, http w call = Ret (Response status body) ->
     400 <= status < 600 ->
     exists msg, onboard_dropbox w user_data config
     = (Ret false, [HttpCall call true; error_line msg])) /\
  (forall status body, http w call = Ret (Response status body) ->
     status < 400 \/ 600 <= status ->
     onboard_dropbox w user_data config
     = (Ret true,
        [HttpCall call true;
         Log INFO (VFmt [VStr "Invited "; VStr email; VStr " to Dropbox folder: ";
                         folder_path])])).
Proof.
  intros (Ht & He & Hp) call error_line. repeat split.
  - intros e Hh Hr.
    apply (onboard_dropbox_request_exception w _ _ _ _ _ Ht He Hp e Hh Hr).
  - intros status body Hh Hs.
    apply (onboard_dropbox_http_error w _ _ _ _ _ Ht He Hp _ Hh).
    unfold error_status. cbn.
    destruct (Z.leb_spec 400 status), (Z.ltb_spec status 600); cbn; lia || reflexivity.
  - intros status body Hh Hs.
    apply (onboard_dropbox_success w _ _ _ _ _ Ht He Hp _ Hh).
    unfold error_status. cbn.
    destruct (Z.leb_spec 400 status), (Z.ltb_spec status 600); cbn; lia || reflexivity.
Qed.

(** The HTTP layer cannot connect; Dropbox answers 200 with a page that is
    not JSON. *)
Lemma onboard_dropbox_failures_witness :
  (let w := world_http (Raise (Exn RequestException "Connection refused")) in
   result (onboard_dropbox w new_employee_data (DROPBOX_CONFIG w)) = Ret false) /\
  (let w := world_http (Ret (Response 409 (Ret VNone))) in
   result (onboard_dropbox w new_employee_data (DROPBOX_CONFIG w)) = Ret false) /\
  (let w := world_http (Ret (Response 200 (Raise (Exn JSONDecodeError "Expecting value")))) in
   result (onboard_dropbox w new_employee_data (DROPBOX_CONFIG w)) = Ret true).
Proof.
  split; [|split]; intros w.
  - rewrite (proj1 (onboard_dropbox_failures w new_employee_data (DROPBOX_CONFIG w)
                      (VStr "dbx") (VStr "/Company Shared/New Starters")
                      "newhire123@yourcorpdomain.com"
                      ltac:(repeat split; reflexivity)) _ eq_refl eq_refl).
    reflexivity.
  - destruct (proj1 (proj2 (onboard_dropbox_failures w new_employee_data
                      (DROPBOX_CONFIG w)
                      (VStr "dbx") (VStr "/Company Shared/New Starters")
                      "newhire123@yourcorpdomain.com"
                      ltac:(repeat split; reflexivity)))
                409 (Ret VNone) eq_refl ltac:(lia)) as [msg ->].
    reflexivity.
  - rewrite (proj2 (proj2 (onboard_dropbox_failures w new_employee_data
                      (DROPBOX_CONFIG w)
                      (VStr "dbx") (VStr "/Company Shared/New Starters")
                      "newhire123@yourcorpdomain.com"
                      ltac:(repeat split; reflexivity)))
               200 _ eq_refl ltac:(lia)).
    reflexivity.
Defined.

(** ** The Slack notifier *)

Section Slack.

Context (w : world) (user_data : gmap string string) (config : gmap string value).
Context (bot_token channel_name : value) (email first_name last_name : string).

Local Abbreviation call := (slack_call bot_token channel_name email first_name last_name).
Local Abbreviation try_statement :=
  (slack_try w bot_token channel_name email first_name last_name).

(** A run of the [try] statement that returns [True] went through an answer
    whose status is no error status and whose body is a dict with a truthy
    [ok]. *)
Lemma slack_try_true (t : trace) :
  try_statement = (Ret true, t) ->
  exists resp kvs ok,
    http w call = Ret resp /\ error_status resp = false /\
    json resp = Ret (VDict kvs) /\ assoc "ok" kvs = Some ok /\ truthy ok = true /\
    t = [HttpCall call true; (slack_sent_line channel_name email)].
Proof.
  unfold slack_try, call_http.
  destruct (http w call) as [resp|e]; run.
  2:{ destruct (is_RequestException e); [discriminate|].
      destruct (is_JSONDecodeError e); discriminate. }
  destruct (raise_for_status_cases resp) as [[-> Hs]|[[msg ->] _]]; run;
    [|discriminate].
  destruct (json resp) as [body|e] eqn:Hjson; run.
  2:{ destruct (is_RequestException e); [discriminate|].
      destruct (is_JSONDecodeError e); discriminate. }
  destruct body; cbn; try discriminate.
  destruct (assoc "ok" kvs) as [ok|] eqn:Hok; cbn; [|discriminate].
  destruct (truthy ok) eqn:Htr; cbn; [|discriminate].
  intros [= <-]. exists resp, kvs, ok. repeat split; auto.
Qed.

Hypothesis Htoken : config !! "bot_token" = Some bot_token.
Hypothesis Hchannel : config !! "welcome_channel" = Some channel_name.
Hypothesis Hemail : user_data !! "email" = Some email.
Hypothesis Hfirst : user_data !! "first_name" = Some first_name.
Hypothesis Hlast : user_data !! "last_name" = Some last_name.

Lemma welcome_slack_user_unfold :
  welcome_slack_user w user_data config = try_statement.
Proof.
  unfold welcome_slack_user.
  rewrite (getitem_Some _ _ _ Htoken), (getitem_Some _ _ _ Hchannel),
    (getitem_Some _ _ _ Hemail), (getitem_Some _ _ _ Hfirst),
    (getitem_Some _ _ _ Hlast), !bind_ret.
  reflexivity.
Qed.

(** An answer without error status whose body is a dict that does not
    acknowledge: [False], and one error line carrying the body's [error]. *)
Lemma welcome_slack_user_rejected (resp : response) (kvs : list (string * value)) :
  http w call = Ret resp ->
  error_status resp = false ->
  json resp = Ret (VDict kvs) ->
  truthy (default VNone (assoc "ok" kvs)) = false ->
  welcome_slack_user w user_data config
  = (Ret false, [HttpCall call true;
                 slack_rejected_line email (default VNone (assoc "error" kvs))]).
Proof.
  intros Hh Hs Hj Hok. rewrite welcome_slack_user_unfold. unfold slack_try, call_http.
  rewrite Hh. run. rewrite (raise_for_status_passes _ Hs). run.
  rewrite Hj. cbn. rewrite Hok. reflexivity.
Qed.




End Slack.

(** A run of the notifier that returns [True] read its five subscripts, so
    it is a run of the [try] statement. *)
Lemma welcome_slack_user_true_inv
    (w : world) (user_data : gmap string string) (config : gmap string value) (t : trace) :
  welcome_slack_user w user_data config = (Ret true, t) ->
  exists bot_token channel_name email first_name last_name,
    slack_try w bot_token channel_name email first_name last_name = (Ret true, t).
Proof.
  intros H.
  destruct (config !! "bot_token") as [bot|] eqn:H1;
    [|unfold welcome_slack_user in H; rewrite (getitem_None _ _ H1) in H; discriminate].
  destruct (config !! "welcome_channel") as [ch|] eqn:H2;
    [|unfold welcome_slack_user in H;
      rewrite (getitem_Some _ _ _ H1), bind_ret, (getitem_None _ _ H2) in H; discriminate].
  destruct (user_data !! "email") as [em|] eqn:H3;
    [|unfold welcome_slack_user in H;
      rewrite (getitem_Some _ _ _ H1), bind_ret, (getitem_Some _ _ _ H2), bind_ret,
        (getitem_None _ _ H3) in H; discriminate].
  destruct (user_data !! "first_name") as [fn|] eqn:H4;
    [|unfold welcome_slack_user in H;
      rewrite (getitem_Some _ _ _ H1), bind_ret, (getitem_Some _ _ _ H2), bind_ret,
        (getitem_Some _ _ _ H3), bind_ret, (getitem_None _ _ H4) in H; discriminate].
  destruct (user_data !! "last_name") as [ln|] eqn:H5;
    [|unfold welcome_slack_user in H;
      rewrite (getitem_Some _ _ _ H1), bind_ret, (getitem_Some _ _ _ H2), bind_ret,
        (getitem_Some _ _ _ H3), bind_ret, (getitem_Some _ _ _ H4), bind_ret,
        (getitem_None _ _ H5) in H; discriminate].
  exists bot, ch, em, fn, ln.
  rewrite <- H. symmetry. apply welcome_slack_user_unfold; assumption.
Qed.

(** C6, as the code has it.  The notifier returns [True] only after an
    answer whose status is no error status (none of 400-599: this is what
    [raise_for_status] checks, and it lets every 2xx through) and whose JSON
    body is a dict with a truthy [ok]; then it has issued its one request and
    logged its one info line.  Given the answer 200 with the body
    [{"ok": false, "error": "channel_not_found"}], it returns [False] and
    logs one error line that ends with [channel_not_found]. *)
Theorem welcome_slack_user_acknowledged
    (w : world) (user_data : gmap string string) (config : gmap string value)
    (bot_token channel_name : value) (email first_name last_name : string) :
  (forall t, welcome_slack_user w user_data config = (Ret true, t) ->
     exists call resp kvs ok,
       http w call = Ret resp /\ error_status resp = false /\
       json resp = Ret (VDict kvs) /\ assoc "ok" kvs = Some ok /\ truthy ok = true /\
       exists msg, t = [HttpCall call true; Log INFO msg]) /\
  (config !! "bot_token" = Some bot_token ->
   config !! "welcome_channel" = Some channel_name ->
   user_data !! "email" = Some email ->
   user_data !! "first_name" = Some first_name ->
   user_data !! "last_name" = Some last_name ->
   http w (slack_call bot_token channel_name email first_name last_name)
     = Ret (Response 200 (Ret channel_not_found)) ->
   welcome_slack_user w user_data config
   = (Ret false,
      [HttpCall (slack_call bot_token channel_name email first_name last_name) true;
       Log ERROR (VFmt [VStr "Failed to send welcome message to Slack for ";
                        VStr email; VStr ": "; VStr "channel_not_found"])])).
Proof.
  split.
  - intros t H.
    apply welcome_slack_user_true_inv in H as (bot & ch & em & fn & ln & Htry).
    destruct (slack_try_true _ _ _ _ _ _ _ Htry)
      as (resp & kvs & ok & Hh & Hs & Hj & Hok & Htr & ->).
    exists (slack_call bot ch em fn ln), resp, kvs, ok.
    repeat split; auto. eexists. reflexivity.
  - intros H1 H2 H3 H4 H5 Hh.
    apply (welcome_slack_user_rejected w user_data config bot_token channel_name
             email first_name last_name H1 H2 H3 H4 H5 _
             [("ok", VBool false); ("error", VStr "channel_not_found")] Hh);
      reflexivity.
Qed.

Lemma welcome_slack_user_acknowledged_witness :
  (let w := world_ok (VDict [("ok", VBool true)]) in
   exists call resp kvs ok,
     http w call = Ret resp /\ error_status resp = false /\
     json resp = Ret (VDict kvs) /\ assoc "ok" kvs = Some ok /\ truthy ok = true /\
     exists msg,
       [HttpCall (slack_call (VStr "xoxb") (VStr "#general-announcements")
                    "newhire123@yourcorpdomain.com" "John" "Doe") true;
        slack_sent_line (VStr "#general-announcements") "newhire123@yourcorpdomain.com"]
       = [HttpCall call true; Log INFO msg]) /\
  (let w := world_ok channel_not_found in
   welcome_slack_user w new_employee_data (SLACK_CONFIG w)
   = (Ret false,
      [HttpCall (slack_call (VStr "xoxb") (VStr "#general-announcements")
                   "newhire123@yourcorpdomain.com" "John" "Doe") true;
       Log ERROR (VFmt [VStr "Failed to send welcome message to Slack for ";
                        VStr "newhire123@yourcorpdomain.com"; VStr ": ";
                        VStr "channel_not_found"])])).
Proof.
  split.
  - intros w.
    apply (proj1 (welcome_slack_user_acknowledged w new_employee_data (SLACK_CONFIG w)
                    VNone VNone "" "" "")).
    reflexivity.
  - intros w.
    apply (proj2 (welcome_slack_user_acknowledged w new_employee_data (SLACK_CONFIG w)
                    (VStr "xoxb") (VStr "#general-announcements")
                    "newhire123@yourcorpdomain.com" "John" "Doe"));
      reflexivity.
Defined.

(** C6 as it is worded fails on two inputs: an answer 300, which is not a
    2xx and which [raise_for_status] lets through, and an [ok] that is the
    number 1 rather than [true].  The notifier returns [True] on both. *)
Lemma welcome_slack_user_true_without_2xx :
  (let resp := Response 300 (Ret (VDict [("ok", VBool true)])) in
   let w := world_http (Ret resp) in
   result (welcome_slack_user w new_employee_data (SLACK_CONFIG w)) = Ret true /\
   ~ (200 <= status_code resp < 300)) /\
  (let body := VDict [("ok", VInt 1)] in
   let w := world_http (Ret (Response 200 (Ret body))) in
   result (welcome_slack_user w new_employee_data (SLACK_CONFIG w)) = Ret true /\
   assoc "ok" [("ok", VInt 1)] <> Some (VBool true)).
Proof.
  split; cbv zeta; (split; [reflexivity|]).
  - cbn. lia.
  - cbn. discriminate.
Qed.

(** ** The directory provider *)

Section Directory.

Context (w : world) (user_data : gmap string string) (config : gmap string value).

Context (file scopes default_org_unit domain group credentials service : value).
Context (email first_name last_name : string).

Local Abbreviation create :=
  (create_user_call user_data default_org_unit domain service email first_name last_name).
Local Abbreviation add := (add_member_call group service email).
Local Abbreviation setup := (directory_setup file scopes credentials).

Hypothesis Hfile : config !! "service_account_file" = Some file.
Hypothesis Hscopes : config !! "admin_scopes" = Some scopes.
Hypothesis Hou : config !! "default_org_unit" = Some default_org_unit.
Hypothesis Hdomain : config !! "domain" = Some domain.
Hypothesis Hgroup : config !! "onboarding_group_email" = Some group.
Hypothesis Hemail : user_data !! "email" = Some email.
Hypothesis Hfirst : user_data !! "first_name" = Some first_name.
Hypothesis Hlast : user_data !! "last_name" = Some last_name.
Hypothesis Hcredentials : google w (FromServiceAccountFile file scopes) = Ret credentials.
Hypothesis Hservice : google w (Build credentials) = Ret service.

(** Once the credentials are loaded and the client is built, the provider
    runs in one of four ways. *)
Lemma onboard_google_workspace_cases :
  (exists e, google w create = Raise e /\
     onboard_google_workspace w user_data config
     = (Ret false, setup ++
          [GoogleCall create false; directory_error_line email e])) \/
  (exists new_user e, google w create = Ret new_user /\
     value_getitem new_user "primaryEmail" = (Raise e, []) /\
     onboard_google_workspace w user_data config
     = (Ret false, setup ++
          [GoogleCall create true; directory_error_line email e])) \/
  (exists new_user primary e, google w create = Ret new_user /\
     value_getitem new_user "primaryEmail" = (Ret primary, []) /\
     google w add = Raise e /\
     onboard_google_workspace w user_data config
     = (Ret false, setup ++
          [GoogleCall create true; directory_created_line primary;
           GoogleCall add false; directory_error_line email e])) \/
  (exists new_user primary member, google w create = Ret new_user /\
     value_getitem new_user "primaryEmail" = (Ret primary, []) /\
     google w add = Ret member /\
     onboard_google_workspace w user_data config
     = (Ret true, setup ++
          [GoogleCall create true; directory_created_line primary;
           GoogleCall add true; (directory_added_line group email)])).
Proof.
  unfold onboard_google_workspace, call_google.
  rewrite (getitem_Some _ _ _ Hfile), bind_ret, (getitem_Some _ _ _ Hscopes), bind_ret.
  rewrite Hcredentials. run. rewrite Hservice. run.
  rewrite (getitem_Some _ _ _ Hemail), (getitem_Some _ _ _ Hfirst),
    (getitem_Some _ _ _ Hlast), (getitem_Some _ _ _ Hou),
    (getitem_Some _ _ _ Hdomain), (getitem_Some _ _ _ Hgroup).
  run. fold (request_password user_data). fold (request_org_unit user_data default_org_unit).
  fold create. fold add.
  destruct (google w create) as [new_user|e] eqn:Hc; run.
  2:{ left. exists e. split; reflexivity. }
  right.
  destruct (value_getitem new_user "primaryEmail") as [[primary|e] t] eqn:Hg.
  all: pose proof (value_getitem_events new_user "primaryEmail") as Hev;
    rewrite Hg in Hev; cbn in Hev; subst t; run.
  2:{ left. exists new_user, e. repeat split; reflexivity || assumption. }
  right.
  destruct (google w add) as [member|e] eqn:Ha; run.
  - right. exists new_user, primary, member. repeat split; reflexivity || assumption.
  - left. exists new_user, primary, e. repeat split; reflexivity || assumption.
Qed.

End Directory.

(** Whatever the world does, a create-user request that the provider issues
    carries the record's email and names, the password and org unit as
    resolved, and the flag. *)
Lemma create_user_request_shape
    (w : world) (user_data : gmap string string) (config : gmap string value)
    (service domain body : value) (ok : bool) :
  In (GoogleCall (UsersInsert service domain body) ok)
     (events (onboard_google_workspace w user_data config)) ->
  exists email first_name last_name default_org_unit,
    user_data !! "email" = Some email /\
    user_data !! "first_name" = Some first_name /\
    user_data !! "last_name" = Some last_name /\
    config !! "default_org_unit" = Some default_org_unit /\
    config !! "domain" = Some domain /\
    UsersInsert service domain body =
      create_user_call user_data default_org_unit domain service
        email first_name last_name.
Proof.
  unfold onboard_google_workspace, call_google, getitem, value_getitem.
  unfold mbind, M_bind, mret, M_ret, raise, lift, logging, emit, try_except, events.
  repeat (cbn; case_match; simplify_eq).
  all: cbn; intros Hin; in_events Hin.
  all: injection Hin as <- <- <- <-.
  all: eexists _, _, _, _; repeat split; eassumption || reflexivity.
Qed.

(** C9. With a record and a configuration that hold the entries the provider
    reads, and once the credentials are loaded and the client is built, the
    directory provider issues its create-user request, it is the only
    create-user request of the run, and in it the password is the fixed
    placeholder when the record has no [password] and the record's
    otherwise, and the org unit is the configuration's [default_org_unit]
    when the record has no [org_unit] and the record's otherwise. *)
Theorem create_user_request_defaults
    (w : world) (user_data : gmap string string) (config : gmap string value)
    (file scopes default_org_unit domain group credentials service : value)
    (email first_name last_name : string) :
  directory_ready w user_data config file scopes default_org_unit domain group
    credentials service email first_name last_name ->
  exists kvs ok rest,
    events (onboard_google_workspace w user_data config)
    = [GoogleCall (FromServiceAccountFile file scopes) true;
       GoogleCall (Build credentials) true;
       GoogleCall (UsersInsert service domain (VDict kvs)) ok] ++ rest /\
    (forall service' domain' body ok',
       In (GoogleCall (UsersInsert service' domain' body) ok')
          (events (onboard_google_workspace w user_data config)) ->
       body = VDict kvs) /\
    (user_data !! "password" = None ->
       assoc "password" kvs = Some (VStr "DefaultWelcome1!")) /\
    (forall p, user_data !! "password" = Some p ->
       assoc "password" kvs = Some (VStr p)) /\
    (user_data !! "org_unit" = None ->
       assoc "orgUnitPath" kvs = Some default_org_unit) /\
    (forall o, user_data !! "org_unit" = Some o ->
       assoc "orgUnitPath" kvs = Some (VStr o)).
Proof.
  intros (Hf & Hs & Hou & Hd & Hg & He & Hfn & Hln & Hc & Hb).
  assert (Hissued : exists ok rest,
    events (onboard_google_workspace w user_data config)
    = [GoogleCall (FromServiceAccountFile file scopes) true;
       GoogleCall (Build credentials) true;
       GoogleCall (create_user_call user_data default_org_unit domain service
                     email first_name last_name) ok] ++ rest).
  { destruct (onboard_google_workspace_cases w user_data config file scopes
                default_org_unit domain group credentials service email first_name
                last_name Hf Hs Hou Hd Hg He Hfn Hln Hc Hb)
      as [(e & _ & ->)|[(nu & e & _ & _ & ->)|
          [(nu & pr & e & _ & _ & _ & ->)|(nu & pr & m & _ & _ & _ & ->)]]];
      eexists _, _; reflexivity. }
  destruct Hissued as (ok & rest & Hev).
  eexists _, ok, rest. split; [exact Hev|]. split.
  - intros service' domain' body ok' Hin.
    destruct (create_user_request_shape _ _ _ _ _ _ _ Hin)
      as (email' & first' & last' & dou' & He' & Hfn' & Hln' & Hou' & _ & Hbody).
    rewrite He in He'. rewrite Hfn in Hfn'. rewrite Hln in Hln'. rewrite Hou in Hou'.
    injection He' as <-. injection Hfn' as <-. injection Hln' as <-.
    injection Hou' as <-. injection Hbody as ->. reflexivity.
  - cbn. unfold request_password, request_org_unit. repeat split.
    + intros ->. reflexivity.
    + intros p ->. reflexivity.
    + intros ->. reflexivity.
    + intros o ->. reflexivity.
Qed.

(** The script's record with a password added (it has an org unit of its
    own), and the same record without either entry, in a world where every
    call succeeds. *)
Lemma create_user_request_defaults_witness :
  (exists kvs ok rest,
     events (onboard_google_workspace (world_ok VNone)
               (<["password" := "S3cret-Passw0rd"]> new_employee_data)
               GOOGLE_WORKSPACE_CONFIG)
     = [GoogleCall (FromServiceAccountFile
                      (VStr "/path/to/your/gworkspace_service_account_key.json")
                      (VList [VStr "https://www.googleapis.com/auth/admin.directory.user";
                              VStr "https://www.googleapis.com/auth/admin.directory.group"]))
                   true;
        GoogleCall (Build (VStr "credentials")) true;
        GoogleCall (UsersInsert (VStr "service") (VStr "yourcorpdomain.com") (VDict kvs)) ok]
       ++ rest /\
     assoc "password" kvs = Some (VStr "S3cret-Passw0rd") /\
     assoc "orgUnitPath" kvs = Some (VStr "/Users/New Employees")) /\
  (exists kvs ok rest,
     events (onboard_google_workspace (world_ok VNone)
               (delete "org_unit" new_employee_data) GOOGLE_WORKSPACE_CONFIG)
     = [GoogleCall (FromServiceAccountFile
                      (VStr "/path/to/your/gworkspace_service_account_key.json")
                      (VList [VStr "https://www.googleapis.com/auth/admin.directory.user";
                              VStr "https://www.googleapis.com/auth/admin.directory.group"]))
                   true;
        GoogleCall (Build (VStr "credentials")) true;
        GoogleCall (UsersInsert (VStr "service") (VStr "yourcorpdomain.com") (VDict kvs)) ok]
       ++ rest /\
     assoc "password" kvs = Some (VStr "DefaultWelcome1!") /\
     assoc "orgUnitPath" kvs = Some (VStr "/Users")).
Proof.
  split.
  - destruct (create_user_request_defaults (world_ok VNone)
                (<["password" := "S3cret-Passw0rd"]> new_employee_data)
                GOOGLE_WORKSPACE_CONFIG
                (VStr "/path/to/your/gworkspace_service_account_key.json")
                (VList [VStr "https://www.googleapis.com/auth/admin.directory.user";
                        VStr "https://www.googleapis.com/auth/admin.directory.group"])
                (VStr "/Users") (VStr "yourcorpdomain.com")
                (VStr "all-employees@yourcorpdomain.com")
                (VStr "credentials") (VStr "service")
                "newhire123@yourcorpdomain.com" "John" "Doe")
      as (kvs & ok & rest & Hev & _ & _ & Hp & _ & Ho).
    + repeat split; reflexivity.
    + exists kvs, ok, rest. split; [exact Hev|].
      split; [apply Hp | apply Ho]; reflexivity.
  - destruct (create_user_request_defaults (world_ok VNone)
                (delete "org_unit" new_employee_data) GOOGLE_WORKSPACE_CONFIG
                (VStr "/path/to/your/gworkspace_service_account_key.json")
                (VList [VStr "https://www.googleapis.com/auth/admin.directory.user";
                        VStr "https://www.googleapis.com/auth/admin.directory.group"])
                (VStr "/Users") (VStr "yourcorpdomain.com")
                (VStr "all-employees@yourcorpdomain.com")
                (VStr "credentials") (VStr "service")
                "newhire123@yourcorpdomain.com" "John" "Doe")
      as (kvs & ok & rest & Hev & _ & Hp & _ & Ho & _).
    + repeat split; reflexivity.
    + exists kvs, ok, rest. split; [exact Hev|].
      split; [apply Hp | apply Ho]; reflexivity.
Defined.

(** C8. With a record and a configuration that hold the entries the provider
    reads, and once the credentials are loaded and the client is built: the
    provider issues the create-user request, whose body carries the record's
    email and names, the password, the org unit and
    [changePasswordAtNextLogin = True]; when that request completes and
    returns a user with its [primaryEmail], the next request is the
    add-member request for that email on the configured group; there is no
    other request; and the provider returns [True] exactly when both
    requests have completed without error, [False] otherwise. *)
Theorem onboard_google_workspace_requests
    (w : world) (user_data : gmap string string) (config : gmap string value)
    (file scopes default_org_unit domain group credentials service : value)
    (email first_name last_name : string) :
  directory_ready w user_data config file scopes default_org_unit domain group
    credentials service email first_name last_name ->
  let create := UsersInsert service domain (VDict [
    ("primaryEmail", VStr email);
    ("name", VDict [("givenName", VStr first_name); ("familyName", VStr last_name)]);
    ("password", VStr (request_password user_data));
    ("orgUnitPath", request_org_unit user_data default_org_unit);
    ("changePasswordAtNextLogin", VBool true)]) in
  let add := GroupsInsert service group
    (VDict [("email", VStr email); ("role", VStr "MEMBER")]) in
  exists b rest,
    onboard_google_workspace w user_data config
    = (Ret b, [GoogleCall (FromServiceAccountFile file scopes) true;
               GoogleCall (Build credentials) true;
               GoogleCall create (completed (google w create))] ++ rest) /\
    (forall new_user primary,
       google w create = Ret new_user ->
       value_getitem new_user "primaryEmail" = (Ret primary, []) ->
       exists rest',
         rest = Log INFO (VFmt [VStr "Google Workspace user created: "; primary])
                :: GoogleCall add (completed (google w add)) :: rest') /\
    (forall call ok, In (GoogleCall call ok) rest -> call = add) /\
    (b = true <->
       completed (google w create) = true /\ In (GoogleCall add true) rest).
Proof.
  intros (Hf & Hs & Hou & Hd & Hg & He & Hfn & Hln & Hc & Hb). cbv zeta.
  fold (create_user_call user_data default_org_unit domain service email
          first_name last_name).
  fold (add_member_call group service email).
  set (create := create_user_call _ _ _ _ _ _ _).
  set (add := add_member_call _ _ _).
  destruct (onboard_google_workspace_cases w user_data config file scopes
              default_org_unit domain group credentials service email first_name
              last_name Hf Hs Hou Hd Hg He Hfn Hln Hc Hb)
    as [(e & H1 & Hrun)|[(nu & e & H1 & H2 & Hrun)|
        [(nu & pr & e & H1 & H2 & H3 & Hrun)|(nu & pr & m & H1 & H2 & H3 & Hrun)]]];
    fold create in H1, Hrun; fold add in Hrun; try fold add in H3;
    rewrite Hrun, H1; cbn [completed].
  - exists false, [directory_error_line email e].
    split; [reflexivity|]. split; [intros ? ? [=]|].
    split; [intros ? ? Hin; in_events Hin|].
    split; [discriminate | intros [[=] _]].
  - exists false, [directory_error_line email e].
    split; [reflexivity|]. split; [intros ? ? [= <-] Hp; congruence|].
    split; [intros ? ? Hin; in_events Hin|].
    split; [discriminate | intros [_ Hin]; in_events Hin].
  - exists false, [directory_created_line pr; GoogleCall add false; directory_error_line email e].
    split; [reflexivity|].
    split; [intros ? ? [= <-] Hp; rewrite H2 in Hp; injection Hp as <-;
            rewrite H3; eexists; reflexivity|].
    split; [intros ? ? Hin; in_events Hin; congruence|].
    split; [discriminate | intros [_ Hin]; in_events Hin].
  - exists true, [directory_created_line pr; GoogleCall add true; directory_added_line group email].
    split; [reflexivity|].
    split; [intros ? ? [= <-] Hp; rewrite H2 in Hp; injection Hp as <-;
            rewrite H3; eexists; reflexivity|].
    split; [intros ? ? Hin; in_events Hin; congruence|].
    split; [intros _; split; [reflexivity | right; left; reflexivity] | reflexivity].
Qed.

Lemma onboard_google_workspace_requests_witness :
  exists b rest,
    onboard_google_workspace (world_ok VNone) new_employee_data GOOGLE_WORKSPACE_CONFIG
    = (Ret b,
       [GoogleCall (FromServiceAccountFile
                      (VStr "/path/to/your/gworkspace_service_account_key.json")
                      (VList [VStr "https://www.googleapis.com/auth/admin.directory.user";
                              VStr "https://www.googleapis.com/auth/admin.directory.group"]))
                   true;
        GoogleCall (Build (VStr "credentials")) true;
        GoogleCall (UsersInsert (VStr "service") (VStr "yourcorpdomain.com") (VDict [
          ("primaryEmail", VStr "newhire123@yourcorpdomain.com");
          ("name", VDict [("givenName", VStr "John"); ("familyName", VStr "Doe")]);
          ("password", VStr "DefaultWelcome1!");
          ("orgUnitPath", VStr "/Users/New Employees");
          ("changePasswordAtNextLogin", VBool true)])) true] ++ rest) /\
    b = true.
Proof.
  destruct (onboard_google_workspace_requests (world_ok VNone) new_employee_data
              GOOGLE_WORKSPACE_CONFIG
              (VStr "/path/to/your/gworkspace_service_account_key.json")
              (VList [VStr "https://www.googleapis.com/auth/admin.directory.user";
                      VStr "https://www.googleapis.com/auth/admin.directory.group"])
              (VStr "/Users") (VStr "yourcorpdomain.com")
              (VStr "all-employees@yourcorpdomain.com")
              (VStr "credentials") (VStr "service")
              "newhire123@yourcorpdomain.com" "John" "Doe")
    as (b & rest & Hrun & _ & _ & Hb).
  - repeat split; reflexivity.
  - exists b, rest. split; [exact Hrun|].
    vm_compute in Hrun. injection Hrun as <- _. reflexivity.
Defined.

(** ** The orchestrator *)

Section Orchestrator.

Context (user_data : gmap string string) (email : string).
Hypothesis Hemail : user_data !! "email" = Some email.

Lemma all_four (g z d s : bool) :
  all_ [g; z; d; s] = true <-> g = true /\ z = true /\ d = true /\ s = true.
Proof. destruct g, z, d, s; cbn; intuition congruence. Qed.

Lemma report_line (g z d s : bool) :
  report user_data g z d s
  = (Ret tt, [if all_ [g; z; d; s] then success_line email else warning_line email]).
Proof.
  unfold report. rewrite (getitem_Some _ _ _ Hemail).
  destruct (all_ [g; z; d; s]); reflexivity.
Qed.

Context (directory conferencing file_share chat : gmap string string -> M bool).

Lemma run_onboarding_unfold :
  run_onboarding directory conferencing file_share chat user_data
  = (emit (start_line email);;
     g ← directory user_data;
     z ← conferencing user_data;
     d ← file_share user_data;
     s ← chat user_data;
     report user_data g z d s).
Proof.
  unfold run_onboarding. rewrite (getitem_Some _ _ _ Hemail), bind_ret. reflexivity.
Qed.

(** When the four calls return, each one has run, in the order of the
    script, and the aggregate line closes the log. *)
Lemma run_onboarding_returns (g z d s : bool) :
  result (directory user_data) = Ret g ->
  result (conferencing user_data) = Ret z ->
  result (file_share user_data) = Ret d ->
  result (chat user_data) = Ret s ->
  run_onboarding directory conferencing file_share chat user_data
  = (Ret tt,
     [start_line email] ++ events (directory user_data)
       ++ events (conferencing user_data) ++ events (file_share user_data)
       ++ events (chat user_data)
       ++ [if all_ [g; z; d; s] then success_line email else warning_line email]).
Proof.
  rewrite run_onboarding_unfold. unfold result, events.
  destruct (directory user_data) as [o1 t1], (conferencing user_data) as [o2 t2],
    (file_share user_data) as [o3 t3], (chat user_data) as [o4 t4].
  cbn. intros -> -> -> ->. cbn. rewrite report_line. reflexivity.
Qed.

(** An exception that leaves a provider ends the run: the providers after it
    are not called and no aggregate line is logged. *)
Lemma run_onboarding_raises_directory (e : exn) :
  result (directory user_data) = Raise e ->
  run_onboarding directory conferencing file_share chat user_data
  = (Raise e, [start_line email] ++ events (directory user_data)).
Proof.
  rewrite run_onboarding_unfold. unfold result, events.
  destruct (directory user_data) as [o1 t1]. cbn. intros ->. reflexivity.
Qed.

Lemma run_onboarding_raises_conferencing (g : bool) (e : exn) :
  result (directory user_data) = Ret g ->
  result (conferencing user_data) = Raise e ->
  run_onboarding directory conferencing file_share chat user_data
  = (Raise e, [start_line email] ++ events (directory user_data)
                ++ events (conferencing user_data)).
Proof.
  rewrite run_onboarding_unfold. unfold result, events.
  destruct (directory user_data) as [o1 t1], (conferencing user_data) as [o2 t2].
  cbn. intros -> ->. reflexivity.
Qed.

Lemma run_onboarding_raises_file_share (g z : bool) (e : exn) :
  result (directory user_data) = Ret g ->
  result (conferencing user_data) = Ret z ->
  result (file_share user_data) = Raise e ->
  run_onboarding directory conferencing file_share chat user_data
  = (Raise e, [start_line email] ++ events (directory user_data)
                ++ events (conferencing user_data) ++ events (file_share user_data)).
Proof.
  rewrite run_onboarding_unfold. unfold result, events.
  destruct (directory user_data) as [o1 t1], (conferencing user_data) as [o2 t2],
    (file_share user_data) as [o3 t3].
  cbn. intros -> -> ->. reflexivity.
Qed.

Lemma run_onboarding_raises_chat (g z d : bool) (e : exn) :
  result (directory user_data) = Ret g ->
  result (conferencing user_data) = Ret z ->
  result (file_share user_data) = Ret d ->
  result (chat user_data) = Raise e ->
  run_onboarding directory conferencing file_share chat user_data
  = (Raise e, [start_line email] ++ events (directory user_data)
                ++ events (conferencing user_data) ++ events (file_share user_data)
                ++ events (chat user_data)).
Proof.
  rewrite run_onboarding_unfold. unfold result, events.
  destruct (directory user_data) as [o1 t1], (conferencing user_data) as [o2 t2],
    (file_share user_data) as [o3 t3], (chat user_data) as [o4 t4].
  cbn. intros -> -> -> ->. reflexivity.
Qed.

(** The run ends normally exactly when each of the four calls returns. *)
Lemma run_onboarding_exits_normally :
  result (run_onboarding directory conferencing file_share chat user_data) = Ret tt <->
  exists g z d s,
    result (directory user_data) = Ret g /\
    result (conferencing user_data) = Ret z /\
    result (file_share user_data) = Ret d /\
    result (chat user_data) = Ret s.
Proof.
  split.
  - destruct (result (directory user_data)) as [g|e] eqn:H1;
      [|rewrite (run_onboarding_raises_directory e H1); discriminate].
    destruct (result (conferencing user_data)) as [z|e] eqn:H2;
      [|rewrite (run_onboarding_raises_conferencing g e H1 H2); discriminate].
    destruct (result (file_share user_data)) as [d|e] eqn:H3;
      [|rewrite (run_onboarding_raises_file_share g z e H1 H2 H3); discriminate].
    destruct (result (chat user_data)) as [s|e] eqn:H4;
      [|rewrite (run_onboarding_raises_chat g z d e H1 H2 H3 H4); discriminate].
    intros _. exists g, z, d, s. repeat split; reflexivity.
  - intros (g & z & d & s & H1 & H2 & H3 & H4).
    rewrite (run_onboarding_returns g z d s H1 H2 H3 H4). reflexivity.
Qed.

End Orchestrator.

(** X17. With the script's four providers the run never ends normally,
    whatever the record, the configurations and the world: the conferencing
    call does not return. *)
Lemma onboard_never_exits_normally
    (w : world) (gcfg zcfg dcfg scfg : gmap string value)
    (user_data : gmap string string) :
  exists e, result (onboard w gcfg zcfg dcfg scfg user_data) = Raise e.
Proof.
  destruct (result (onboard w gcfg zcfg dcfg scfg user_data)) as [[]|e] eqn:H;
    [|eauto].
  unfold onboard in H.
  destruct (user_data !! "email") as [email|] eqn:He.
  - apply (run_onboarding_exits_normally user_data email He) in H
      as (g & z & d & s & _ & Hz & _).
    destruct (onboard_zoom_raises w user_data zcfg) as [e' He'].
    rewrite He' in Hz. discriminate.
  - unfold run_onboarding in H. rewrite (getitem_None _ _ He) in H. discriminate.
Qed.

(** Lines 205-208 on four given results: the aggregate [all([...])] is true
    exactly when the four results are all true; [report] then logs one line
    and nothing else, the success line when they are and the warning line
    otherwise; and in a run whose four provider calls return, that line is
    the one event after the providers' own.  No run of the script gets that
    far (see [onboard_never_exits_normally]). *)
Theorem report_aggregate
    (user_data : gmap string string) (email : string) (g z d s : bool)
    (directory conferencing file_share chat : gmap string string -> M bool) :
  user_data !! "email" = Some email ->
  (all_ [g; z; d; s] = true <-> g = true /\ z = true /\ d = true /\ s = true) /\
  (all_ [g; z; d; s] = true ->
     report user_data g z d s
     = (Ret tt, [Log INFO (VFmt [VStr "Onboarding process completed successfully for ";
                                 VStr email])])) /\
  (all_ [g; z; d; s] = false ->
     report user_data g z d s
     = (Ret tt, [Log WARNING (VFmt [VStr "Onboarding process completed for "; VStr email;
          VStr " with some potential failures. Check logs for details."])])) /\
  (result (directory user_data) = Ret g ->
   result (conferencing user_data) = Ret z ->
   result (file_share user_data) = Ret d ->
   result (chat user_data) = Ret s ->
   exists provider_events,
     run_onboarding directory conferencing file_share chat user_data
     = (Ret tt, [start_line email] ++ provider_events
                ++ [if all_ [g; z; d; s] then success_line email else warning_line email]) /\
     provider_events = events (directory user_data) ++ events (conferencing user_data)
                       ++ events (file_share user_data) ++ events (chat user_data)).
Proof.
  intros Hemail. split; [apply all_four|].
  split; [intros Hall; rewrite (report_line _ _ Hemail), Hall; reflexivity|].
  split; [intros Hall; rewrite (report_line _ _ Hemail), Hall; reflexivity|].
  intros H1 H2 H3 H4. eexists. split; [|reflexivity].
  rewrite (run_onboarding_returns _ _ Hemail _ _ _ _ g z d s H1 H2 H3 H4).
  rewrite <- !app_assoc. reflexivity.
Qed.

Lemma report_aggregate_witness :
  report new_employee_data true true true true
  = (Ret tt, [success_line "newhire123@yourcorpdomain.com"]) /\
  report new_employee_data true false true true
  = (Ret tt, [warning_line "newhire123@yourcorpdomain.com"]).
Proof.
  split.
  - apply (report_aggregate new_employee_data "newhire123@yourcorpdomain.com"
             true true true true (fun _ => mret true) (fun _ => mret true)
             (fun _ => mret true) (fun _ => mret true)); reflexivity.
  - apply (report_aggregate new_employee_data "newhire123@yourcorpdomain.com"
             true false true true (fun _ => mret true) (fun _ => mret false)
             (fun _ => mret true) (fun _ => mret true)); reflexivity.
Defined.

(** C3, as the code has it.  The orchestrator calls the directory, the
    conferencing, the file-share and the chat provider in this order, each on
    the same record.  Whatever booleans the earlier calls return, the next
    provider is called; an exception that leaves a provider ends the run
    there, before the providers after it. *)
Theorem run_onboarding_order
    (user_data : gmap string string) (email : string)
    (directory conferencing file_share chat : gmap string string -> M bool) :
  user_data !! "email" = Some email ->
  let run := run_onboarding directory conferencing file_share chat user_data in
  (forall g z d s,
     result (directory user_data) = Ret g ->
     result (conferencing user_data) = Ret z ->
     result (file_share user_data) = Ret d ->
     result (chat user_data) = Ret s ->
     run = (Ret tt,
            [start_line email] ++ events (directory user_data)
              ++ events (conferencing user_data) ++ events (file_share user_data)
              ++ events (chat user_data)
              ++ [if all_ [g; z; d; s] then success_line email else warning_line email])) /\
  (forall e,
     result (directory user_data) = Raise e ->
     run = (Raise e, [start_line email] ++ events (directory user_data))) /\
  (forall g e,
     result (directory user_data) = Ret g ->
     result (conferencing user_data) = Raise e ->
     run = (Raise e, [start_line email] ++ events (directory user_data)
                       ++ events (conferencing user_data))) /\
  (forall g z e,
     result (directory user_data) = Ret g ->
     result (conferencing user_data) = Ret z ->
     result (file_share user_data) = Raise e ->
     run = (Raise e, [start_line email] ++ events (directory user_data)
                       ++ events (conferencing user_data)
                       ++ events (file_share user_data))) /\
  (forall g z d e,
     result (directory user_data) = Ret g ->
     result (conferencing user_data) = Ret z ->
     result (file_share user_data) = Ret d ->
     result (chat user_data) = Raise e ->
     run = (Raise e, [start_line email] ++ events (directory user_data)
                       ++ events (conferencing user_data)
                       ++ events (file_share user_data) ++ events (chat user_data))).
Proof.
  intros Hemail run. subst run. repeat split.
  - intros. apply run_onboarding_returns; assumption.
  - intros. apply run_onboarding_raises_directory; assumption.
  - intros. eapply run_onboarding_raises_conferencing; eassumption.
  - intros. eapply run_onboarding_raises_file_share; eassumption.
  - intros. eapply run_onboarding_raises_chat; eassumption.
Qed.

(** Two runs on the script's record: one in which the directory provider
    fails on its request and returns [False] and the three others are still
    called, with a token supplied to the conferencing provider; and the
    script itself, which ends in the conferencing provider. *)
Lemma run_onboarding_order_witness :
  (let w := world_conflict in
   let directory := fun u => onboard_google_workspace w u GOOGLE_WORKSPACE_CONFIG in
   let conferencing := fun u : gmap string string =>
     zoom_with_token w (default "" (u !! "email")) (ZOOM_CONFIG w) (VStr "token") in
   let file_share := fun u => onboard_dropbox w u (DROPBOX_CONFIG w) in
   let chat := fun u => welcome_slack_user w u (SLACK_CONFIG w) in
   run_onboarding directory conferencing file_share chat new_employee_data
   = (Ret tt,
      [start_line "newhire123@yourcorpdomain.com"]
        ++ events (directory new_employee_data)
        ++ events (conferencing new_employee_data)
        ++ events (file_share new_employee_data)
        ++ events (chat new_employee_data)
        ++ [warning_line "newhire123@yourcorpdomain.com"])) /\
  (let w := world_ok (VDict [("ok", VBool true)]) in
   main w
   = (Raise timedelta_error,
      [start_line "newhire123@yourcorpdomain.com"]
        ++ events (onboard_google_workspace w new_employee_data GOOGLE_WORKSPACE_CONFIG)
        ++ events (onboard_zoom w new_employee_data (ZOOM_CONFIG w)))).
Proof.
  split.
  - intros w directory conferencing file_share chat.
    apply (proj1 (run_onboarding_order new_employee_data "newhire123@yourcorpdomain.com"
                    directory conferencing file_share chat eq_refl)
             false true true true); reflexivity.
  - intros w.
    apply (proj1 (proj2 (proj2 (run_onboarding_order new_employee_data
                    "newhire123@yourcorpdomain.com"
                    (fun u => onboard_google_workspace w u GOOGLE_WORKSPACE_CONFIG)
                    (fun u => onboard_zoom w u (ZOOM_CONFIG w))
                    (fun u => onboard_dropbox w u (DROPBOX_CONFIG w))
                    (fun u => welcome_slack_user w u (SLACK_CONFIG w)) eq_refl)))
             true timedelta_error); reflexivity.
Defined.

(** C3 as it is worded fails when the key file cannot be read: the exception
    leaves the directory provider, the script ends there, and the
    conferencing, file-share and chat providers are not called. *)
Lemma main_stops_in_directory :
  main world_no_key_file
  = (Raise (Exn (OtherError "FileNotFoundError") "No such file or directory"),
     [start_line "newhire123@yourcorpdomain.com";
      GoogleCall (FromServiceAccountFile
                    (VStr "/path/to/your/gworkspace_service_account_key.json")
                    (VList [VStr "https://www.googleapis.com/auth/admin.directory.user";
                            VStr "https://www.googleapis.com/auth/admin.directory.group"]))
                 false]).
Proof. reflexivity. Qed.






(** ** The [try] statement of the Zoom provider, case by case *)

Section ZoomCases.

Context (w : world) (email : string) (config : gmap string value) (jwt_token : value).

Local Abbreviation list_call := (zoom_list_call jwt_token).
Local Abbreviation listing := (zoom_listing w email jwt_token).

(** The listing leaves one event, its request. *)
Lemma zoom_listing_events :
  events listing = [HttpCall list_call (completed (http w list_call))].
Proof.
  unfold zoom_listing, call_http.
  destruct (http w list_call) as [resp|e]; run; [|reflexivity].
  destruct (raise_for_status_cases resp) as [[-> _]|[[msg ->] _]]; run; [|reflexivity].
  destruct (json resp) as [body|e]; run; [|reflexivity].
  pose proof (value_get_events body "users" (VList [])) as Hg.
  destruct (value_get body "users" (VList [])) as [[users|e] t]; cbn in Hg; subst t; run;
    [|reflexivity].
  pose proof (iterate_events users) as Hi.
  destruct (iterate users) as [[l|e] t]; cbn in Hi; subst t; run; [|reflexivity].
  pose proof (any_email_events email l) as Ha.
  destruct (any_email email l) as [o t]; cbn in Ha; subst t. reflexivity.
Qed.

Lemma zoom_page_lists_listing (found : bool) :
  zoom_page_lists w email jwt_token found ->
  listing = (Ret found, [HttpCall list_call true]).
Proof.
  intros (resp & body & users & l & Hh & Hs & Hj & Hg & Hi & Ha).
  unfold zoom_listing, call_http. rewrite Hh. run.
  rewrite (raise_for_status_passes _ Hs). run. rewrite Hj. run.
  rewrite Hg. run. rewrite Hi. run. rewrite Ha. reflexivity.
Qed.

(** What the rest of the [try] statement does with the listing. *)
Lemma zoom_with_token_listing :
  zoom_with_token w email config jwt_token =
  match listing with
  | (Raise e, t) => (Ret false, t ++ [zoom_error_line email (exn_msg e)])
  | (Ret false, t) => (Ret true, t ++ [zoom_not_found_line email])
  | (Ret true, t) =>
      match config !! "default_group_id" with
      | None => (Ret true, t ++ [zoom_exists_line email])
      | Some group_id =>
          if truthy group_id then
            let call := zoom_group_call email jwt_token group_id in
            match http w call with
            | Raise e =>
                (Ret false, t ++ [zoom_exists_line email; HttpCall call false;
                                  zoom_error_line email (exn_msg e)])
            | Ret r =>
                match result (raise_for_status r) with
                | Raise e =>
                    (Ret false, t ++ [zoom_exists_line email; HttpCall call true;
                                      zoom_error_line email (exn_msg e)])
                | Ret _ =>
                    (Ret true, t ++ [zoom_exists_line email; HttpCall call true;
                                     zoom_added_line email group_id])
                end
            end
          else (Ret true, t ++ [zoom_exists_line email])
      end
  end.
Proof.
  unfold zoom_with_token, zoom_listing, call_http. fold (zoom_headers jwt_token).
  fold list_call.
  destruct (http w list_call) as [resp|e]; run; [|reflexivity].
  destruct (raise_for_status_cases resp) as [[-> _]|[[msg ->] _]]; run; [|reflexivity].
  destruct (json resp) as [body|e]; run; [|reflexivity].
  pose proof (value_get_events body "users" (VList [])) as Hg.
  destruct (value_get body "users" (VList [])) as [[users|e] t]; cbn in Hg; subst t; run;
    [|reflexivity].
  pose proof (iterate_events users) as Hi.
  destruct (iterate users) as [[l|e] t]; cbn in Hi; subst t; run; [|reflexivity].
  pose proof (any_email_events email l) as Ha.
  destruct (any_email email l) as [[[|]|e] t]; cbn in Ha; subst t; run;
    try reflexivity.
  unfold getitem.
  destruct (config !! "default_group_id") as [gid|]; cbn; [|reflexivity].
  destruct (truthy gid); [|reflexivity]. run.
  fold (zoom_group_call email jwt_token gid).
  destruct (http w (zoom_group_call email jwt_token gid)) as [r|e]; run; [|reflexivity].
  destruct (raise_for_status_cases r) as [[-> _]|[[msg ->] _]]; reflexivity.
Qed.

End ZoomCases.

(** X1. With a token, lines 90-117 of [onboard_zoom] return whenever what is
    raised inside them is an [Exception]: every such exception raised by the
    listing, by the search or by the group request is caught by the clause
    [except Exception] (a [KeyboardInterrupt] or [SystemExit] is not, and is
    outside the model).  They log exactly one error line when they return
    [False] and none when they return [True]. *)
Theorem zoom_with_token_returns
    (w : world) (email : string) (config : gmap string value) (jwt_token : value) :
  exists b,
    result (zoom_with_token w email config jwt_token) = Ret b /\
    count_errors (events (zoom_with_token w email config jwt_token))
    = if b then 0%nat else 1%nat.
Proof.
  rewrite zoom_with_token_listing.
  pose proof (zoom_listing_events w email jwt_token) as Hev.
  destruct (zoom_listing w email jwt_token) as [[[|]|e] t]; cbn in Hev; subst t.
  - destruct (config !! "default_group_id") as [gid|]; [|exists true; split; reflexivity].
    destruct (truthy gid); [|exists true; split; reflexivity].
    cbv zeta. destruct (http w _) as [r|e]; [|exists false; split; reflexivity].
    destruct (result (raise_for_status r));
      [exists true | exists false]; split; reflexivity.
  - exists true. split; reflexivity.
  - exists false. split; reflexivity.
Qed.

(** X2. With a token, when the employee is on the listed page and the
    configuration has a truthy [default_group_id]: one request adds the
    email to that group, and the result is [True] when it is answered
    without error status; when it is answered with an error status or
    raises, the result is [False] with one error line, although the account
    exists. *)
Theorem zoom_group_add
    (w : world) (email : string) (config : gmap string value)
    (jwt_token group_id : value) :
  zoom_page_lists w email jwt_token true ->
  config !! "default_group_id" = Some group_id ->
  truthy group_id = true ->
  let call := zoom_group_call email jwt_token group_id in
  let listed := [HttpCall (zoom_list_call jwt_token) true; zoom_exists_line email] in
  (forall r, http w call = Ret r -> error_status r = false ->
     zoom_with_token w email config jwt_token
     = (Ret true, listed ++ [HttpCall call true; zoom_added_line email group_id])) /\
  (forall r, http w call = Ret r -> error_status r = true ->
     exists msg, zoom_with_token w email config jwt_token
     = (Ret false, listed ++ [HttpCall call true; zoom_error_line email msg])) /\
  (forall e, http w call = Raise e ->
     zoom_with_token w email config jwt_token
     = (Ret false, listed ++ [HttpCall call false; zoom_error_line email (exn_msg e)])).
Proof.
  intros Hlist Hgid Htruthy call listed.
  rewrite zoom_with_token_listing, (zoom_page_lists_listing _ _ _ _ Hlist), Hgid, Htruthy.
  cbv zeta. fold call. repeat split.
  - intros r -> Hs. rewrite (raise_for_status_passes _ Hs). reflexivity.
  - intros r -> Hs. destruct (raise_for_status_raises _ Hs) as [msg ->].
    exists msg. reflexivity.
  - intros e ->. reflexivity.
Qed.

Lemma zoom_group_add_witness :
  let w := world_ok (VDict [("users", VList [
             VDict [("email", VStr "newhire123@yourcorpdomain.com")]])]) in
  let email := "newhire123@yourcorpdomain.com" in
  zoom_with_token w email (ZOOM_CONFIG w) (VStr "token")
  = (Ret true,
     [HttpCall (zoom_list_call (VStr "token")) true; zoom_exists_line email;
      HttpCall (zoom_group_call email (VStr "token") (VStr "YOUR_CORP_ZOOM_GROUP_ID")) true;
      zoom_added_line email (VStr "YOUR_CORP_ZOOM_GROUP_ID")]).
Proof.
  intros w email.
  apply (proj1 (zoom_group_add w email (ZOOM_CONFIG w) (VStr "token")
                  (VStr "YOUR_CORP_ZOOM_GROUP_ID")
                  ltac:(eexists _, _, _, _; repeat split; reflexivity)
                  eq_refl eq_refl)
           (Response 200 (Ret (VDict [("users", VList [
              VDict [("email", VStr "newhire123@yourcorpdomain.com")]])]))));
    reflexivity.
Defined.

(** X3. With a token, when the employee is on the listed page and the
    configuration has no [default_group_id], or a falsy one (None, the empty
    string): no group request is made, one info line is logged and the
    result is [True]. *)
Theorem zoom_no_group
    (w : world) (email : string) (config : gmap string value) (jwt_token : value) :
  zoom_page_lists w email jwt_token true ->
  truthy (default VNone (config !! "default_group_id")) = false ->
  zoom_with_token w email config jwt_token
  = (Ret true, [HttpCall (zoom_list_call jwt_token) true; zoom_exists_line email]).
Proof.
  intros Hlist Hgid.
  rewrite zoom_with_token_listing, (zoom_page_lists_listing _ _ _ _ Hlist).
  destruct (config !! "default_group_id") as [gid|]; [|reflexivity].
  cbn in Hgid. rewrite Hgid. reflexivity.
Qed.

Lemma zoom_no_group_witness :
  let w := world_ok (VDict [("users", VList [VDict [("email", VStr "a@corp.com")]])]) in
  zoom_with_token w "a@corp.com" (<["default_group_id" := VStr ""]> (ZOOM_CONFIG w))
    (VStr "token")
  = (Ret true, [HttpCall (zoom_list_call (VStr "token")) true;
                zoom_exists_line "a@corp.com"]).
Proof.
  intros w.
  apply (zoom_no_group w "a@corp.com" (<["default_group_id" := VStr ""]> (ZOOM_CONFIG w))
           (VStr "token")).
  - eexists _, _, _, _. repeat split; reflexivity.
  - reflexivity.
Defined.

(** X4. With a token, a listing answered without error status by a JSON
    object that has no [users] entry counts as an empty page: the employee
    is reported as not found, with one warning and [True].  A body that is
    not a JSON object has no [get]: the result is [False] with one error
    line. *)
Theorem zoom_body_shapes
    (w : world) (email : string) (config : gmap string value) (jwt_token : value)
    (resp : response) :
  http w (zoom_list_call jwt_token) = Ret resp ->
  error_status resp = false ->
  (forall kvs, json resp = Ret (VDict kvs) -> assoc "users" kvs = None ->
     zoom_with_token w email config jwt_token
     = (Ret true, [HttpCall (zoom_list_call jwt_token) true; zoom_not_found_line email])) /\
  (forall body, json resp = Ret body -> (forall kvs, body <> VDict kvs) ->
     zoom_with_token w email config jwt_token
     = (Ret false, [HttpCall (zoom_list_call jwt_token) true;
                    zoom_error_line email "object has no attribute 'get'"])).
Proof.
  intros Hh Hs. split.
  - intros kvs Hj Hu.
    apply (zoom_with_token_not_listed w email config jwt_token resp (VDict kvs)
             (VList []) [] Hh Hs Hj); [|reflexivity|reflexivity].
    cbn. rewrite Hu. reflexivity.
  - intros body Hj Hb. rewrite zoom_with_token_listing.
    unfold zoom_listing, call_http. rewrite Hh. run.
    rewrite (raise_for_status_passes _ Hs). run. rewrite Hj.
    destruct body; try reflexivity. destruct (Hb kvs). reflexivity.
Qed.

Lemma zoom_body_shapes_witness :
  (let w := world_ok (VDict [("page_count", VInt 0)]) in
   zoom_with_token w "a@corp.com" (ZOOM_CONFIG w) (VStr "token")
   = (Ret true, [HttpCall (zoom_list_call (VStr "token")) true;
                 zoom_not_found_line "a@corp.com"])) /\
  (let w := world_ok (VList []) in
   zoom_with_token w "a@corp.com" (ZOOM_CONFIG w) (VStr "token")
   = (Ret false, [HttpCall (zoom_list_call (VStr "token")) true;
                  zoom_error_line "a@corp.com" "object has no attribute 'get'"])).
Proof.
  split; intros w.
  - apply (proj1 (zoom_body_shapes w "a@corp.com" (ZOOM_CONFIG w) (VStr "token")
                    (Response 200 (Ret (VDict [("page_count", VInt 0)])))
                    eq_refl eq_refl) [("page_count", VInt 0)]); reflexivity.
  - apply (proj2 (zoom_body_shapes w "a@corp.com" (ZOOM_CONFIG w) (VStr "token")
                    (Response 200 (Ret (VList []))) eq_refl eq_refl) (VList []));
      [reflexivity | discriminate].
Defined.

Lemma eq_str_true (v : value) (s : string) : eq_str v s = true <-> v = VStr s.
Proof.
  destruct v; cbn; try (split; [discriminate | intros [=]]).
  rewrite String.eqb_eq. split; [intros ->; reflexivity | intros [= ->]; reflexivity].
Qed.

Lemma any_email_dict (email : string) (kvs : list (string * value)) (rest : list value) :
  any_email email (VDict kvs :: rest)
  = if eq_str (default VNone (assoc "email" kvs)) email then (Ret true, [])
    else any_email email rest.
Proof.
  cbn [any_email]. unfold value_get.
  change (mret (default VNone (assoc "email" kvs)) : M value)
    with ((Ret (default VNone (assoc "email" kvs)), []) : M value).
  rewrite bind_ret. reflexivity.
Qed.

(** X5. The search of line 101 stops at the first listed user whose [email]
    is exactly the employee's: users after it are not looked at, whatever
    they are.  A listed entry that is not a JSON object and comes before any
    match makes the search raise [AttributeError].  A search that says yes
    has met a user with that email. *)
Theorem any_email_first_match
    (email : string) (before after : list value) :
  Forall (other_user email) before ->
  any_email email before = (Ret false, []) /\
  (forall user, lists_email email user ->
     any_email email (before ++ user :: after) = (Ret true, [])) /\
  (forall entry, (forall kvs, entry <> VDict kvs) ->
     any_email email (before ++ entry :: after)
     = (Raise (Exn AttributeError "object has no attribute 'get'"), [])) /\
  (forall users, any_email email users = (Ret true, []) ->
     Exists (lists_email email) users).
Proof.
  intros Hb. split; [apply any_email_false; exact Hb|].
  split; [|split].
  - intros user (kvs & -> & Hk).
    induction Hb as [|u rest (kvs' & -> & Hne) _ IH]; cbn [app].
    + rewrite any_email_dict, Hk. cbn. rewrite String.eqb_refl. reflexivity.
    + rewrite any_email_dict, Hne. exact IH.
  - intros entry Hentry.
    induction Hb as [|u rest (kvs' & -> & Hne) _ IH]; cbn [app].
    + destruct entry; try reflexivity. destruct (Hentry kvs). reflexivity.
    + rewrite any_email_dict, Hne. exact IH.
  - induction users as [|u rest IH]; [discriminate|].
    destruct u; try discriminate.
    rewrite any_email_dict.
    destruct (eq_str (default VNone (assoc "email" kvs)) email) eqn:E.
    + intros _. left. exists kvs. split; [reflexivity|].
      apply eq_str_true in E. destruct (assoc "email" kvs); cbn in E; congruence.
    + intros H. right. apply IH. exact H.
Qed.

Lemma any_email_first_match_witness :
  any_email "b@corp.com"
    ([VDict [("email", VStr "a@corp.com")]; VDict [("id", VInt 7)]]
       ++ VDict [("email", VStr "b@corp.com")] :: [VStr "not a user"])
  = (Ret true, []).
Proof.
  apply (any_email_first_match "b@corp.com"
           [VDict [("email", VStr "a@corp.com")]; VDict [("id", VInt 7)]]
           [VStr "not a user"]).
  - repeat constructor; eexists; split; reflexivity.
  - eexists. split; reflexivity.
Defined.

(** X6. With a token, when the listing is answered and the employee is not
    among the listed users: one warning, no other request (no account is
    created, and the group request is not made even when a group is
    configured), and the result is [True]. *)
Theorem zoom_not_listed
    (w : world) (email : string) (config : gmap string value) (jwt_token : value) :
  zoom_page_lists w email jwt_token false ->
  zoom_with_token w email config jwt_token
  = (Ret true, [HttpCall (zoom_list_call jwt_token) true; zoom_not_found_line email]).
Proof.
  intros Hlist.
  rewrite zoom_with_token_listing, (zoom_page_lists_listing _ _ _ _ Hlist).
  reflexivity.
Qed.

Lemma zoom_not_listed_witness :
  let w := world_ok (VDict [("users", VList [VDict [("email", VStr "a@corp.com")]])]) in
  zoom_with_token w "b@corp.com" (ZOOM_CONFIG w) (VStr "token")
  = (Ret true, [HttpCall (zoom_list_call (VStr "token")) true;
                zoom_not_found_line "b@corp.com"]).
Proof.
  intros w.
  apply (zoom_not_listed w "b@corp.com" (ZOOM_CONFIG w) (VStr "token")).
  eexists _, _, _, _. repeat split; reflexivity.
Defined.

(** ** More on the Dropbox provider and the Slack notifier *)

Lemma onboard_dropbox_events
    (w : world) (user_data : gmap string string) (config : gmap string value)
    (access_token folder_path : value) (email : string) :
  dropbox_ready user_data config access_token folder_path email ->
  let call := dropbox_call access_token folder_path email in
  exists rest,
    events (onboard_dropbox w user_data config)
    = HttpCall call (completed (http w call)) :: rest /\
    (length rest <= 1)%nat /\
    Forall (fun ev => is_http_call ev = false) rest.
Proof.
  intros (Ht & He & Hp) call.
  rewrite (onboard_dropbox_unfold w user_data config access_token folder_path email
             Ht He Hp).
  unfold call_http. fold call.
  destruct (http w call) as [resp|e]; run.
  - destruct (raise_for_status_cases resp) as [[-> _]|[[msg ->] _]];
      eexists; (split; [reflexivity|]); split; cbn; try lia; repeat constructor.
  - destruct (is_RequestException e); [|destruct (is_JSONDecodeError e)];
      eexists; (split; [reflexivity|]); split; cbn; try lia; repeat constructor.
Qed.

Lemma welcome_slack_user_events
    (w : world) (user_data : gmap string string) (config : gmap string value)
    (bot_token channel_name : value) (email first_name last_name : string) :
  slack_ready user_data config bot_token channel_name email first_name last_name ->
  let call := slack_call bot_token channel_name email first_name last_name in
  exists rest,
    events (welcome_slack_user w user_data config)
    = HttpCall call (completed (http w call)) :: rest /\
    (length rest <= 1)%nat /\
    Forall (fun ev => is_http_call ev = false) rest.
Proof.
  intros (Ht & Hc & He & Hf & Hl) call.
  rewrite (welcome_slack_user_unfold w user_data config bot_token channel_name email
             first_name last_name Ht Hc He Hf Hl).
  unfold slack_try, call_http. fold call.
  destruct (http w call) as [resp|e]; run.
  2:{ destruct (is_RequestException e); [|destruct (is_JSONDecodeError e)];
      eexists; (split; [reflexivity|]); split; cbn; try lia; repeat constructor. }
  destruct (raise_for_status_cases resp) as [[-> _]|[[msg ->] _]]; run.
  2:{ eexists; (split; [reflexivity|]); split; cbn; try lia; repeat constructor. }
  destruct (json resp) as [body|e]; run.
  2:{ destruct (is_RequestException e); [|destruct (is_JSONDecodeError e)];
      eexists; (split; [reflexivity|]); split; cbn; try lia; repeat constructor. }
  destruct body; cbn;
    try (eexists; (split; [reflexivity|]); split; cbn; try lia; repeat constructor).
  destruct (truthy (default VNone (assoc "ok" kvs))); cbn;
    eexists; (split; [reflexivity|]); split; cbn; try lia; repeat constructor.
Qed.

Lemma onboard_dropbox_result_eq
    (w : world) (user_data : gmap string string) (config : gmap string value)
    (access_token folder_path : value) (email : string) :
  dropbox_ready user_data config access_token folder_path email ->
  result (onboard_dropbox w user_data config) =
  match http w (dropbox_call access_token folder_path email) with
  | Ret resp => Ret (negb (error_status resp))
  | Raise e =>
      if is_RequestException e then Ret false
      else if is_JSONDecodeError e then Raise unbound_e_error
      else Raise e
  end.
Proof.
  intros (Ht & He & Hp).
  destruct (http w _) as [resp|e] eqn:Hh.
  - destruct (error_status resp) eqn:Hs.
    + destruct (onboard_dropbox_http_error w _ _ _ _ _ Ht He Hp resp Hh Hs) as [msg ->].
      reflexivity.
    + rewrite (onboard_dropbox_success w _ _ _ _ _ Ht He Hp resp Hh Hs). reflexivity.
  - destruct (is_RequestException e) eqn:Hr.
    + rewrite (onboard_dropbox_request_exception w _ _ _ _ _ Ht He Hp e Hh Hr).
      reflexivity.
    + destruct (is_JSONDecodeError e) eqn:Hd.
      * rewrite (onboard_dropbox_decode_error w _ _ _ _ _ Ht He Hp e Hh Hr Hd).
        reflexivity.
      * rewrite (onboard_dropbox_other_exception w _ _ _ _ _ Ht He Hp e Hh Hr Hd).
        reflexivity.
Qed.

(** X8. With the three entries it reads present, [onboard_dropbox] issues
    its one request in every run, and its result depends on nothing but that
    request's outcome: [True] exactly when the request is answered without
    error status (the body is never read), [False] exactly when it raises a
    [RequestException] or is answered with an error status.  After the
    request at most one line is logged, and no second request is made. *)
Theorem onboard_dropbox_result
    (w : world) (user_data : gmap string string) (config : gmap string value)
    (access_token folder_path : value) (email : string) :
  dropbox_ready user_data config access_token folder_path email ->
  let call := dropbox_call access_token folder_path email in
  (result (onboard_dropbox w user_data config) = Ret true <->
     exists resp, http w call = Ret resp /\ error_status resp = false) /\
  (result (onboard_dropbox w user_data config) = Ret false <->
     (exists e, http w call = Raise e /\ is_RequestException e = true) \/
     (exists resp, http w call = Ret resp /\ error_status resp = true)) /\
  (exists rest,
     events (onboard_dropbox w user_data config)
     = HttpCall call (completed (http w call)) :: rest /\
     (length rest <= 1)%nat /\
     Forall (fun ev => is_http_call ev = false) rest).
Proof.
  intros Hready call.
  split; [|split; [|apply (onboard_dropbox_events w _ _ _ _ _ Hready)]].
  all: rewrite (onboard_dropbox_result_eq w _ _ _ _ _ Hready); fold call.
  all: destruct (http w call) as [resp|e].
  - destruct (error_status resp) eqn:Hs; cbn; split.
    + discriminate.
    + intros (r & [= <-] & Hf). congruence.
    + eauto.
    + reflexivity.
  - destruct (is_RequestException e) eqn:Hr; [|destruct (is_JSONDecodeError e)];
      (split; [discriminate | intros (r & [=] & _)]).
  - destruct (error_status resp) eqn:Hs; cbn; split.
    + eauto.
    + reflexivity.
    + discriminate.
    + intros [(e & [=] & _)|(r & [= <-] & Hf)]. congruence.
  - destruct (is_RequestException e) eqn:Hr; [|destruct (is_JSONDecodeError e)];
      split; try discriminate; eauto.
    + intros [(e' & [= <-] & Hf)|(r & [=] & _)]. congruence.
    + intros [(e' & [= <-] & Hf)|(r & [=] & _)]. congruence.
Qed.

Lemma onboard_dropbox_result_witness :
  (let w := world_http (Ret (Response 204 (Raise (Exn JSONDecodeError "no body")))) in
   result (onboard_dropbox w new_employee_data (DROPBOX_CONFIG w)) = Ret true) /\
  (let w := world_http (Ret (Response 409 (Ret VNone))) in
   result (onboard_dropbox w new_employee_data (DROPBOX_CONFIG w)) = Ret false).
Proof.
  split; intros w.
  - apply (proj1 (onboard_dropbox_result w new_employee_data (DROPBOX_CONFIG w)
                    (VStr "dbx") (VStr "/Company Shared/New Starters")
                    "newhire123@yourcorpdomain.com"
                    ltac:(repeat split; reflexivity))).
    eexists. split; reflexivity.
  - apply (proj1 (proj2 (onboard_dropbox_result w new_employee_data (DROPBOX_CONFIG w)
                    (VStr "dbx") (VStr "/Company Shared/New Starters")
                    "newhire123@yourcorpdomain.com"
                    ltac:(repeat split; reflexivity)))).
    right. eexists. split; reflexivity.
Defined.

(** X9. A record or configuration that lacks an entry the provider reads
    makes [onboard_dropbox] and [welcome_slack_user] raise [KeyError] before
    anything else happens: the subscripts are outside the [try], so no
    request is issued and nothing is logged. *)
Theorem missing_entry_raises_first
    (w : world) (user_data : gmap string string) (dcfg scfg : gmap string value) :
  (dcfg !! "access_token" = None \/ user_data !! "email" = None \/
   dcfg !! "onboarding_folder_path" = None ->
   exists key, onboard_dropbox w user_data dcfg = (Raise (Exn KeyError key), [])) /\
  (scfg !! "bot_token" = None \/ scfg !! "welcome_channel" = None \/
   user_data !! "email" = None \/ user_data !! "first_name" = None \/
   user_data !! "last_name" = None ->
   exists key, welcome_slack_user w user_data scfg = (Raise (Exn KeyError key), [])).
Proof.
  split; intros H.
  - unfold onboard_dropbox, getitem.
    destruct (dcfg !! "access_token"); [|eexists; reflexivity].
    destruct (user_data !! "email"); [|eexists; reflexivity].
    destruct (dcfg !! "onboarding_folder_path"); [|eexists; reflexivity].
    destruct H as [H|[H|H]]; discriminate.
  - unfold welcome_slack_user, getitem.
    destruct (scfg !! "bot_token"); [|eexists; reflexivity].
    destruct (scfg !! "welcome_channel"); [|eexists; reflexivity].
    destruct (user_data !! "email"); [|eexists; reflexivity].
    destruct (user_data !! "first_name"); [|eexists; reflexivity].
    destruct (user_data !! "last_name"); [|eexists; reflexivity].
    destruct H as [H|[H|[H|[H|H]]]]; discriminate.
Qed.

Lemma missing_entry_raises_first_witness :
  (exists key, onboard_dropbox (world_ok VNone) (delete "email" new_employee_data)
                 (DROPBOX_CONFIG (world_ok VNone)) = (Raise (Exn KeyError key), [])) /\
  (exists key, welcome_slack_user (world_ok VNone) (delete "last_name" new_employee_data)
                 (SLACK_CONFIG (world_ok VNone)) = (Raise (Exn KeyError key), [])).
Proof.
  split.
  - apply (proj1 (missing_entry_raises_first (world_ok VNone)
                    (delete "email" new_employee_data)
                    (DROPBOX_CONFIG (world_ok VNone)) (SLACK_CONFIG (world_ok VNone)))).
    right. left. reflexivity.
  - apply (proj2 (missing_entry_raises_first (world_ok VNone)
                    (delete "last_name" new_employee_data)
                    (DROPBOX_CONFIG (world_ok VNone)) (SLACK_CONFIG (world_ok VNone)))).
    right. right. right. right. reflexivity.
Defined.

(** X10. The script's Dropbox and Slack configurations take their tokens
    from the environment with [os.environ.get]; when the variable is not
    set the token is [None], and the provider does not stop: it issues its
    request all the same, with the header [Authorization] built from
    [None]. *)
Theorem unset_token_still_requests
    (w : world) (user_data : gmap string string) (email first_name last_name : string) :
  user_data !! "email" = Some email ->
  (environ w !! "DROPBOX_CORP_ACCESS_TOKEN" = None ->
   exists ok rest,
     events (onboard_dropbox w user_data (DROPBOX_CONFIG w))
     = HttpCall (Post (VStr dropbox_url)
                   (VDict [("Authorization", VFmt [VStr "Bearer "; VNone]);
                           ("Content-Type", VStr "application/json")])
                   (Data (VDict [
                      ("share_path", VStr "/Company Shared/New Starters");
                      ("members", VList [VDict [
                         ("member", VDict [(".tag", VStr "email"); ("email", VStr email)]);
                         ("access_level", VStr "viewer")]])]))) ok :: rest) /\
  (environ w !! "SLACK_CORP_BOT_TOKEN" = None ->
   user_data !! "first_name" = Some first_name ->
   user_data !! "last_name" = Some last_name ->
   exists ok rest,
     events (welcome_slack_user w user_data (SLACK_CONFIG w))
     = HttpCall (slack_call VNone (VStr "#general-announcements")
                   email first_name last_name) ok :: rest).
Proof.
  intros He. split.
  - intros Henv.
    destruct (onboard_dropbox_events w user_data (DROPBOX_CONFIG w) VNone
                (VStr "/Company Shared/New Starters") email) as (rest & Hev & _).
    { repeat split; try assumption; try reflexivity.
      change (Some (environ_get w "DROPBOX_CORP_ACCESS_TOKEN") = Some VNone).
      unfold environ_get. rewrite Henv. reflexivity. }
    eexists _, rest. exact Hev.
  - intros Henv Hf Hl.
    destruct (welcome_slack_user_events w user_data (SLACK_CONFIG w) VNone
                (VStr "#general-announcements") email first_name last_name)
      as (rest & Hev & _).
    { repeat split; try assumption; try reflexivity.
      change (Some (environ_get w "SLACK_CORP_BOT_TOKEN") = Some VNone).
      unfold environ_get. rewrite Henv. reflexivity. }
    eexists _, rest. exact Hev.
Qed.

(** A world without any environment variable, whose HTTP layer answers 401. *)
Lemma unset_token_still_requests_witness :
  let w := {| environ := ∅; google := google_ok;
              http := fun _ => Ret (Response 401 (Ret VNone));
              utcnow := 0; jwt_encode := fun _ _ => Ret (VStr "token") |} in
  exists ok rest,
    events (welcome_slack_user w new_employee_data (SLACK_CONFIG w))
    = HttpCall (slack_call VNone (VStr "#general-announcements")
                  "newhire123@yourcorpdomain.com" "John" "Doe") ok :: rest.
Proof.
  intros w.
  apply (proj2 (unset_token_still_requests w new_employee_data
                  "newhire123@yourcorpdomain.com" "John" "Doe" eq_refl));
    reflexivity.
Defined.

(** X11. With the five entries it reads present, [welcome_slack_user]
    returns [True] exactly when its request is answered without error status
    by a JSON object whose [ok] is truthy.  An object whose [ok] is falsy or
    missing is a rejection: [False], and one error line that ends with the
    object's [error] entry, or with [None] when it has none. *)
Theorem welcome_slack_user_result
    (w : world) (user_data : gmap string string) (config : gmap string value)
    (bot_token channel_name : value) (email first_name last_name : string) :
  slack_ready user_data config bot_token channel_name email first_name last_name ->
  let call := slack_call bot_token channel_name email first_name last_name in
  (result (welcome_slack_user w user_data config) = Ret true <->
     exists resp kvs,
       http w call = Ret resp /\ error_status resp = false /\
       json resp = Ret (VDict kvs) /\
       truthy (default VNone (assoc "ok" kvs)) = true) /\
  (forall resp kvs,
     http w call = Ret resp -> error_status resp = false ->
     json resp = Ret (VDict kvs) ->
     truthy (default VNone (assoc "ok" kvs)) = false ->
     welcome_slack_user w user_data config
     = (Ret false, [HttpCall call true;
                    slack_rejected_line email (default VNone (assoc "error" kvs))])).
Proof.
  intros (Ht & Hc & He & Hf & Hl) call. split; [split|].
  - intros H.
    destruct (welcome_slack_user w user_data config) as [o t] eqn:Hrun.
    cbn in H. subst o.
    rewrite (welcome_slack_user_unfold w _ _ _ _ _ _ _ Ht Hc He Hf Hl) in Hrun.
    destruct (slack_try_true _ _ _ _ _ _ _ Hrun)
      as (resp & kvs & ok & Hh & Hs & Hj & Hok & Htr & _).
    exists resp, kvs. rewrite Hok. auto.
  - intros (resp & kvs & Hh & Hs & Hj & Hok).
    rewrite (welcome_slack_user_unfold w _ _ _ _ _ _ _ Ht Hc He Hf Hl).
    unfold slack_try, call_http. fold call. rewrite Hh. run.
    rewrite (raise_for_status_passes _ Hs). run. rewrite Hj. cbn.
    rewrite Hok. reflexivity.
  - intros resp kvs Hh Hs Hj Hok.
    apply (welcome_slack_user_rejected w _ _ _ _ _ _ _ Ht Hc He Hf Hl resp kvs
             Hh Hs Hj Hok).
Qed.

Lemma welcome_slack_user_result_witness :
  (let w := world_ok (VDict [("ok", VBool true); ("ts", VStr "1503435956.000247")]) in
   result (welcome_slack_user w new_employee_data (SLACK_CONFIG w)) = Ret true) /\
  (let w := world_ok (VDict [("warning", VStr "missing_charset")]) in
   welcome_slack_user w new_employee_data (SLACK_CONFIG w)
   = (Ret false,
      [HttpCall (slack_call (VStr "xoxb") (VStr "#general-announcements")
                   "newhire123@yourcorpdomain.com" "John" "Doe") true;
       slack_rejected_line "newhire123@yourcorpdomain.com" VNone])).
Proof.
  split; intros w.
  - apply (proj1 (welcome_slack_user_result w new_employee_data (SLACK_CONFIG w)
                    (VStr "xoxb") (VStr "#general-announcements")
                    "newhire123@yourcorpdomain.com" "John" "Doe"
                    ltac:(repeat split; reflexivity))).
    eexists _, _. repeat split; reflexivity.
  - apply (proj2 (welcome_slack_user_result w new_employee_data (SLACK_CONFIG w)
                    (VStr "xoxb") (VStr "#general-announcements")
                    "newhire123@yourcorpdomain.com" "John" "Doe"
                    ltac:(repeat split; reflexivity))
             (Response 200 (Ret (VDict [("warning", VStr "missing_charset")])))
             [("warning", VStr "missing_charset")]); reflexivity.
Defined.

(** X12. When the answer has no error status and [response.json()] raises:
    an exception that is a [RequestException] gives [False] and the line of
    the transport failures; a [json.JSONDecodeError] that is not one reaches
    the second clause, which reads the unbound [e], so the notifier raises
    [UnboundLocalError] and logs nothing; any other exception leaves the
    notifier as it is. *)
Theorem welcome_slack_user_undecodable
    (w : world) (user_data : gmap string string) (config : gmap string value)
    (bot_token channel_name : value) (email first_name last_name : string)
    (resp : response) (e : exn) :
  slack_ready user_data config bot_token channel_name email first_name last_name ->
  let call := slack_call bot_token channel_name email first_name last_name in
  http w call = Ret resp ->
  error_status resp = false ->
  json resp = Raise e ->
  welcome_slack_user w user_data config =
  if is_RequestException e then
    (Ret false, [HttpCall call true; slack_error_line email (exn_msg e)])
  else if is_JSONDecodeError e then (Raise unbound_e_error, [HttpCall call true])
  else (Raise e, [HttpCall call true]).
Proof.
  intros (Ht & Hc & He & Hf & Hl) call Hh Hs Hj.
  rewrite (welcome_slack_user_unfold w _ _ _ _ _ _ _ Ht Hc He Hf Hl).
  unfold slack_try, call_http. fold call. rewrite Hh. run.
  rewrite (raise_for_status_passes _ Hs). run. rewrite Hj. run.
  destruct (is_RequestException e); [reflexivity|].
  destruct (is_JSONDecodeError e); reflexivity.
Qed.

Lemma welcome_slack_user_undecodable_witness :
  let w := world_http (Ret (Response 200 (Raise (Exn JSONDecodeError "Expecting value")))) in
  welcome_slack_user w new_employee_data (SLACK_CONFIG w)
  = (Raise unbound_e_error,
     [HttpCall (slack_call (VStr "xoxb") (VStr "#general-announcements")
                  "newhire123@yourcorpdomain.com" "John" "Doe") true]).
Proof.
  intros w.
  apply (welcome_slack_user_undecodable w new_employee_data (SLACK_CONFIG w)
           (VStr "xoxb") (VStr "#general-announcements")
           "newhire123@yourcorpdomain.com" "John" "Doe"
           (Response 200 (Raise (Exn JSONDecodeError "Expecting value")))
           (Exn JSONDecodeError "Expecting value")
           ltac:(repeat split; reflexivity)); reflexivity.
Defined.

(** ** More on the directory provider *)

(** X13. A configuration entry that the directory provider reads inside its
    [try] may be missing without an exception leaving the provider.  Without
    [domain] no request is issued: one error line, [False].  Without
    [onboarding_group_email] the account is created first; then the
    [KeyError] is caught: one error line, [False], no add-member request and
    nothing that undoes the creation. *)
Theorem directory_missing_entry_caught
    (w : world) (user_data : gmap string string) (config : gmap string value)
    (file scopes default_org_unit credentials service : value)
    (email first_name last_name : string) :
  directory_reaches_try w user_data config file scopes default_org_unit
    credentials service email first_name last_name ->
  let setup := directory_setup file scopes credentials in
  (config !! "domain" = None ->
   onboard_google_workspace w user_data config
   = (Ret false, setup ++ [directory_error_line email (Exn KeyError "'domain'")])) /\
  (forall domain new_user primary,
     config !! "domain" = Some domain ->
     config !! "onboarding_group_email" = None ->
     let create := create_user_call user_data default_org_unit domain service
                     email first_name last_name in
     google w create = Ret new_user ->
     value_getitem new_user "primaryEmail" = (Ret primary, []) ->
     onboard_google_workspace w user_data config
     = (Ret false, setup ++ [GoogleCall create true; directory_created_line primary;
          directory_error_line email (Exn KeyError "'onboarding_group_email'")])).
Proof.
  intros (Hf & Hs & Hc & Hb & He & Hfn & Hln & Hou) setup. split.
  - intros Hd. unfold onboard_google_workspace, call_google.
    rewrite (getitem_Some _ _ _ Hf), bind_ret, (getitem_Some _ _ _ Hs), bind_ret.
    rewrite Hc. run. rewrite Hb. run.
    rewrite (getitem_Some _ _ _ He), (getitem_Some _ _ _ Hfn),
      (getitem_Some _ _ _ Hln), (getitem_Some _ _ _ Hou), (getitem_None _ _ Hd).
    reflexivity.
  - intros domain new_user primary Hd Hg create Hcreate Hprimary.
    subst create. unfold create_user_call, request_password, request_org_unit in *.
    unfold onboard_google_workspace, call_google.
    rewrite (getitem_Some _ _ _ Hf), bind_ret, (getitem_Some _ _ _ Hs), bind_ret.
    rewrite Hc. run. rewrite Hb. run.
    rewrite (getitem_Some _ _ _ He), (getitem_Some _ _ _ Hfn),
      (getitem_Some _ _ _ Hln), (getitem_Some _ _ _ Hou), (getitem_Some _ _ _ Hd),
      (getitem_None _ _ Hg).
    run. rewrite Hcreate. run. rewrite Hprimary. reflexivity.
Qed.

Lemma directory_missing_entry_caught_witness :
  onboard_google_workspace (world_ok VNone) new_employee_data
    (delete "domain" GOOGLE_WORKSPACE_CONFIG)
  = (Ret false,
     directory_setup (VStr "/path/to/your/gworkspace_service_account_key.json")
       (VList [VStr "https://www.googleapis.com/auth/admin.directory.user";
               VStr "https://www.googleapis.com/auth/admin.directory.group"])
       (VStr "credentials")
     ++ [directory_error_line "newhire123@yourcorpdomain.com" (Exn KeyError "'domain'")]).
Proof.
  apply (proj1 (directory_missing_entry_caught (world_ok VNone) new_employee_data
                  (delete "domain" GOOGLE_WORKSPACE_CONFIG)
                  (VStr "/path/to/your/gworkspace_service_account_key.json")
                  (VList [VStr "https://www.googleapis.com/auth/admin.directory.user";
                          VStr "https://www.googleapis.com/auth/admin.directory.group"])
                  (VStr "/Users") (VStr "credentials") (VStr "service")
                  "newhire123@yourcorpdomain.com" "John" "Doe"
                  ltac:(repeat split; reflexivity))).
  reflexivity.
Defined.

(** X14. What fails before the [try] of the directory provider leaves it
    unlogged: the exception of the credential loading, the exception of the
    client construction, and the [KeyError] of a record without [email],
    [first_name] or [last_name] or of a configuration without
    [default_org_unit].  The record is read only after the credentials are
    loaded and the client is built, so an incomplete record is noticed only
    then. *)
Theorem directory_errors_before_try
    (w : world) (user_data : gmap string string) (config : gmap string value)
    (file scopes : value) :
  config !! "service_account_file" = Some file ->
  config !! "admin_scopes" = Some scopes ->
  let load := FromServiceAccountFile file scopes in
  (forall e, google w load = Raise e ->
     onboard_google_workspace w user_data config = (Raise e, [GoogleCall load false])) /\
  (forall credentials e,
     google w load = Ret credentials -> google w (Build credentials) = Raise e ->
     onboard_google_workspace w user_data config
     = (Raise e, [GoogleCall load true; GoogleCall (Build credentials) false])) /\
  (forall credentials service,
     google w load = Ret credentials -> google w (Build credentials) = Ret service ->
     user_data !! "email" = None \/ user_data !! "first_name" = None \/
     user_data !! "last_name" = None \/ config !! "default_org_unit" = None ->
     exists key,
       onboard_google_workspace w user_data config
       = (Raise (Exn KeyError key), directory_setup file scopes credentials)).
Proof.
  intros Hf Hs load.
  assert (Hstart : forall k : value -> value -> M bool,
            (file ← getitem config "service_account_file";
             scopes ← getitem config "admin_scopes"; k file scopes) = k file scopes).
  { intros k. rewrite (getitem_Some _ _ _ Hf), bind_ret, (getitem_Some _ _ _ Hs), bind_ret.
    reflexivity. }
  unfold onboard_google_workspace. rewrite Hstart. unfold call_google. fold load.
  repeat split.
  - intros e ->. reflexivity.
  - intros credentials e H1 H2. rewrite H1. run. rewrite H2. reflexivity.
  - intros credentials service H1 H2 Hmiss. rewrite H1. run. rewrite H2. run.
    unfold getitem.
    destruct (user_data !! "email"); [|eexists; reflexivity].
    destruct (user_data !! "first_name"); [|eexists; reflexivity].
    destruct (user_data !! "last_name"); [|eexists; reflexivity].
    destruct (config !! "default_org_unit"); [|eexists; reflexivity].
    destruct Hmiss as [H|[H|[H|H]]]; discriminate.
Qed.

Lemma directory_errors_before_try_witness :
  exists key,
    onboard_google_workspace (world_ok VNone) (delete "first_name" new_employee_data)
      GOOGLE_WORKSPACE_CONFIG
    = (Raise (Exn KeyError key),
       directory_setup (VStr "/path/to/your/gworkspace_service_account_key.json")
         (VList [VStr "https://www.googleapis.com/auth/admin.directory.user";
                 VStr "https://www.googleapis.com/auth/admin.directory.group"])
         (VStr "credentials")).
Proof.
  apply (proj2 (proj2 (directory_errors_before_try (world_ok VNone)
                  (delete "first_name" new_employee_data) GOOGLE_WORKSPACE_CONFIG
                  (VStr "/path/to/your/gworkspace_service_account_key.json")
                  (VList [VStr "https://www.googleapis.com/auth/admin.directory.user";
                          VStr "https://www.googleapis.com/auth/admin.directory.group"])
                  eq_refl eq_refl))
           (VStr "credentials") (VStr "service") eq_refl eq_refl).
  right. left. reflexivity.
Defined.

(** ** Error lines and escaping exceptions *)

(** X15. In every run of the directory provider, of the Dropbox provider and
    of the Slack notifier, whatever the world, the record and the
    configuration: a call that returns [False] has logged exactly one error
    line, a call that returns [True] has logged none, and a call that raises
    has logged none either (an exception that leaves a provider is never
    logged by it). *)
Theorem provider_error_lines
    (w : world) (user_data : gmap string string) (gcfg dcfg scfg : gmap string value) :
  let expected (m : M bool) : nat :=
    match result m with Ret false => 1%nat | _ => 0%nat end in
  count_errors (events (onboard_google_workspace w user_data gcfg))
    = expected (onboard_google_workspace w user_data gcfg) /\
  count_errors (events (onboard_dropbox w user_data dcfg))
    = expected (onboard_dropbox w user_data dcfg) /\
  count_errors (events (welcome_slack_user w user_data scfg))
    = expected (welcome_slack_user w user_data scfg).
Proof.
  cbv zeta. repeat split; unfold_all; split_run; reflexivity.
Qed.

(** ** The script as a whole *)

(** The directory provider talks to the Google libraries only, and its lines
    are none of the aggregate lines. *)
Lemma directory_events_local
    (w : world) (user_data : gmap string string) (config : gmap string value) (ev : event) :
  In ev (events (onboard_google_workspace w user_data config)) ->
  is_http_call ev = false /\ ~ is_aggregate_line ev.
Proof.
  unfold_all. split_run.
  all: cbn; intros Hin.
  all: repeat (destruct Hin as [<-|Hin]; [split; [reflexivity|];
         intros (em & [Heq|Heq]); discriminate Heq|]).
  all: contradiction.
Qed.

(** X16. Whatever the world, the record and the four configurations, a run
    of the script makes no call through the requests library and logs no
    aggregate line: the conferencing call raises before its first request,
    and the file-share and chat providers are never reached, so neither
    Zoom nor Dropbox nor Slack is ever contacted.  The only calls out are
    those of the directory provider to the Google client libraries. *)
Theorem onboard_contacts_directory_only
    (w : world) (gcfg zcfg dcfg scfg : gmap string value)
    (user_data : gmap string string) (ev : event) :
  In ev (events (onboard w gcfg zcfg dcfg scfg user_data)) ->
  is_http_call ev = false /\ ~ is_aggregate_line ev.
Proof.
  unfold onboard.
  destruct (user_data !! "email") as [email|] eqn:He.
  2:{ unfold run_onboarding. rewrite (getitem_None _ _ He). intros []. }
  assert (Hstart : is_http_call (start_line email) = false /\
                   ~ is_aggregate_line (start_line email)).
  { split; [reflexivity|]. intros (em & [Heq|Heq]); discriminate Heq. }
  destruct (result (onboard_google_workspace w user_data gcfg)) as [g|e] eqn:Hg.
  - destruct (onboard_zoom_raises w user_data zcfg) as [e Hz].
    rewrite (run_onboarding_raises_conferencing user_data email He _
               (fun u => onboard_zoom w u zcfg) _ _ g e Hg
               ltac:(cbn beta; rewrite Hz; reflexivity)).
    cbn beta. rewrite Hz. cbn [events snd app].
    intros [<-|Hin]; [exact Hstart|].
    rewrite app_nil_r in Hin. apply (directory_events_local _ _ _ _ Hin).
  - rewrite (run_onboarding_raises_directory user_data email He _ _ _ _ e Hg).
    cbn [events snd app]. intros [<-|Hin]; [exact Hstart|].
    apply (directory_events_local _ _ _ _ Hin).
Qed.

Lemma onboard_contacts_directory_only_witness :
  let w := world_ok (VDict [("ok", VBool true)]) in
  is_http_call (GoogleCall (Build (VStr "credentials")) true) = false /\
  ~ is_aggregate_line (GoogleCall (Build (VStr "credentials")) true).
Proof.
  intros w.
  apply (onboard_contacts_directory_only w GOOGLE_WORKSPACE_CONFIG (ZOOM_CONFIG w)
           (DROPBOX_CONFIG w) (SLACK_CONFIG w) new_employee_data).
  vm_compute. right. right. left. reflexivity.
Defined.

(** C2. The run of the script never reaches lines 205-208, whatever the world,
    the record and the four configurations: it ends with an exception, and
    no success line and no warning line is among its events.  That is so in
    particular when not all four providers have succeeded, where the claim
    asks for exactly one warning line. *)
Theorem onboard_logs_no_aggregate_line
    (w : world) (gcfg zcfg dcfg scfg : gmap string value)
    (user_data : gmap string string) :
  (exists e, result (onboard w gcfg zcfg dcfg scfg user_data) = Raise e) /\
  Forall (fun ev => ~ is_aggregate_line ev)
         (events (onboard w gcfg zcfg dcfg scfg user_data)) /\
  (let w_ok := world_ok (VDict [("ok", VBool true)]) in
   result (main w_ok) = Raise timedelta_error /\
   ~ In (warning_line "newhire123@yourcorpdomain.com") (events (main w_ok)) /\
   ~ In (success_line "newhire123@yourcorpdomain.com") (events (main w_ok))).
Proof.
  assert (Hnone : Forall (fun ev => ~ is_aggregate_line ev)
                    (events (onboard w gcfg zcfg dcfg scfg user_data))).
  { apply Forall_forall. intros ev. rewrite list_elem_of_In. unfold onboard.
    destruct (user_data !! "email") as [email|] eqn:He.
    2:{ unfold run_onboarding. rewrite (getitem_None _ _ He). intros []. }
    assert (Hstart : ~ is_aggregate_line (start_line email)).
    { intros (em & [Heq|Heq]); discriminate Heq. }
    destruct (result (onboard_google_workspace w user_data gcfg)) as [g|e] eqn:Hg.
    - destruct (onboard_zoom_raises w user_data zcfg) as [e Hz].
      rewrite (run_onboarding_raises_conferencing user_data email He _
                 (fun u => onboard_zoom w u zcfg) _ _ g e Hg
                 ltac:(cbn beta; rewrite Hz; reflexivity)).
      cbn beta. rewrite Hz. cbn [events snd app].
      intros [<-|Hin]; [exact Hstart|].
      rewrite app_nil_r in Hin. apply (directory_events_local _ _ _ _ Hin).
    - rewrite (run_onboarding_raises_directory user_data email He _ _ _ _ e Hg).
      cbn [events snd app]. intros [<-|Hin]; [exact Hstart|].
      apply (directory_events_local _ _ _ _ Hin). }
  split; [|split; [exact Hnone|]].
  - destruct (result (onboard w gcfg zcfg dcfg scfg user_data)) as [[]|e] eqn:H;
      [|eauto].
    unfold onboard in H.
    destruct (user_data !! "email") as [email|] eqn:He.
    + apply (run_onboarding_exits_normally user_data email He) in H
        as (g & z & d & s & _ & Hz & _).
      destruct (onboard_zoom_raises w user_data zcfg) as [e' He'].
      rewrite He' in Hz. discriminate.
    + unfold run_onboarding in H. rewrite (getitem_None _ _ He) in H. discriminate.
  - cbv zeta. split; [reflexivity|].
    split; intros Hin; vm_compute in Hin;
      repeat (destruct Hin as [Hin|Hin]; [discriminate Hin|]); exact Hin.
Qed.
